(** * MOF water capture: adsorption isotherms and site optimisation

    A shallow embedding of [water/capture/mof_integration.py]: the isotherm
    models and [simulate_mof_performance] of [MOFAdsorptionSimulator], and
    [optimize_for_location] with [_categorize_altitude] of
    [HighAltitudeOptimizer].

    The Python code computes on NumPy/pandas floating-point numbers.  The
    embedding is written once, over an interface [Arith] of the arithmetic
    the code uses, and is read at two instances:
    - [binary64]: Rocq's primitive IEEE 754 binary64 floats, the numbers the
      program runs on (infinities, NaN and rounding included);
    - [exact]: the rationals [Q], the numbers the formulas are written in
      (no rounding, no overflow); it says what the program computes up to
      rounding, wherever no divisor is zero.
    What holds of the code as written is proved for every instance; what is
    a law of the formulas is proved at [exact]; what the program does at a
    concrete input is evaluated at [binary64].
    Library routines whose algorithm is not part of the repository
    ([np.power], [np.mean], the sort behind [DataFrame.sort_values]) are
    parameters of the functions that call them.  To run the ranking on
    tables with equal scores, NumPy's portable quicksort is embedded as
    well ([numpy_quicksort]). *)

From Stdlib Require Import ZArith QArith Qabs Lqa Lia List Floats.
From Stdlib Require Import Sorting.Sorted Sorting.Permutation.
From stdpp Require Import base gmap strings.

Set Warnings "-inexact-float".

(** ** The arithmetic of the program *)

Class Arith (F : Type) := {
  (** the literal [n/d]: [lit 3 10] is Python's [0.3], [lit 4 1] is [4] *)
  lit : Z -> positive -> F;
  add : F -> F -> F;
  mul : F -> F -> F;
  (** NumPy's [/]: total, a zero divisor gives an infinity or NaN *)
  div : F -> F -> F;
  ltb : F -> F -> bool;
  leb : F -> F -> bool;
  eqb : F -> F -> bool;
  isnan : F -> bool
}.

Declare Scope py_scope.
Delimit Scope py_scope with py.
Infix "+" := add : py_scope.
Infix "*" := mul : py_scope.
Infix "/" := div : py_scope.
Infix "<?" := ltb : py_scope.
Infix "<=?" := leb : py_scope.
Infix "=?" := eqb : py_scope.

Definition int {F} `{Arith F} (n : Z) : F := lit n 1.

(** What the proofs use of the comparisons: away from NaN the order is
    total, NaN compares false with everything, and the small integer
    literals (the band edges among them) are numbers in their order. *)
Class ArithOrder (F : Type) `{Arith F} : Prop := {
  leb_ltb_false : forall x y : F, leb x y = true -> ltb y x = false;
  ltb_leb_true : forall x y : F, ltb x y = true -> leb x y = true;
  ltb_false_leb : forall x y : F,
    isnan x = false -> isnan y = false -> ltb x y = false -> leb y x = true;
  leb_trans_true : forall x y z : F,
    leb x y = true -> leb y z = true -> leb x z = true;
  eqb_leb_true : forall x y : F, eqb x y = true -> leb x y = true;
  eqb_sym_true : forall x y : F, eqb x y = true -> eqb y x = true;
  eqb_trans_true : forall x y z : F,
    eqb x y = true -> eqb y z = true -> eqb x z = true;
  nan_ltb_l : forall x y : F, isnan x = true -> ltb x y = false;
  nan_eqb_l : forall x y : F, isnan x = true -> eqb x y = false;
  int_not_nan : forall n : Z, (0 <= n < 4096)%Z -> isnan (int n : F) = false;
  int_leb_mono : forall m n : Z,
    (0 <= m <= n)%Z -> (n < 4096)%Z -> leb (int m : F) (int n) = true
}.

(** *** Exact arithmetic: the rationals

    No rational is the quotient by zero ([Qdiv] returns 0 there): what is
    proved at this instance is stated where the divisors are not zero. *)

Definition Qltb (x y : Q) : bool := (Qnum x * QDen y <? Qnum y * QDen x)%Z.

#[export] Instance exact : Arith Q := {
  lit n d := n # d;
  add := Qplus;
  mul := Qmult;
  div := Qdiv;
  ltb := Qltb;
  leb := Qle_bool;
  eqb := Qeq_bool;
  isnan := fun _ => false
}.

(** *** IEEE 754 binary64: the program's floats *)

Definition float_of_Z (z : Z) : float :=
  match z with
  | Z0 => PrimFloat.zero
  | Zpos p => PrimFloat.of_uint63 (Uint63.of_Z (Zpos p))
  | Zneg p => PrimFloat.opp (PrimFloat.of_uint63 (Uint63.of_Z (Zpos p)))
  end.

(** A decimal literal is the binary64 number nearest to [n/d]; so is the
    correctly rounded quotient of [n] by [d] when both are exact. *)
Definition float_lit (n : Z) (d : positive) : float :=
  PrimFloat.div (float_of_Z n) (float_of_Z (Zpos d)).

#[export] Instance binary64 : Arith float := {
  lit := float_lit;
  add := PrimFloat.add;
  mul := PrimFloat.mul;
  div := PrimFloat.div;
  ltb := PrimFloat.ltb;
  leb := PrimFloat.leb;
  eqb := PrimFloat.eqb;
  isnan := PrimFloat.is_nan
}.

(** The exact rational a finite binary64 number denotes ([None] for the
    infinities and NaN). *)
Definition float_to_Q (x : float) : option Q :=
  match Prim2SF x with
  | S754_zero _ => Some 0%Q
  | S754_finite s m e =>
      let v := (inject_Z (Zpos m) * Qpower 2 e)%Q in
      Some (if s then Qopp v else v)
  | _ => None
  end.

(** [np.power] in exact arithmetic, at the exponents that are whole
    numbers (the only ones with a rational result in general). *)
Definition power_integral (x e : Q) : Q :=
  Qpower x (Qnum e / Zpos (Qden e)).

(** ** Python exceptions *)

Inductive exn : Set :=
| ZeroDivisionError
| KeyError (name : string).

Inductive result (A : Type) : Type :=
| Ok (a : A)
| Raise (e : exn).
Arguments Ok {A} a.
Arguments Raise {A} e.

(** Sequencing: the first exception raised propagates. *)
#[export] Instance result_ret : MRet result := fun A a => Ok a.
#[export] Instance result_bind : MBind result := fun A B k r =>
  match r with
  | Ok a => k a
  | Raise e => Raise e
  end.

Section Simulator.
Context {F : Type} `{Arith F}.
Local Open Scope py_scope.

(** Python's scalar [/] on floats: a zero divisor (of either sign) raises. *)
Definition py_div (x y : F) : result F :=
  if y =? int 0 then Raise ZeroDivisionError else Ok (x / y).

(** An argument annotated [float] is a Python float or a NumPy scalar
    ([np.float64] is a subclass of [float]). *)
Inductive scalar : Type :=
| py_float (x : F)
| np_float64 (x : F).

Definition scalar_value (s : scalar) : F :=
  match s with
  | py_float x => x
  | np_float64 x => x
  end.

(** [1 / s]: Python's division when [s] is a Python float, NumPy's when it
    is a NumPy scalar (at zero a warning and an infinity, no exception). *)
Definition one_over (s : scalar) : result F :=
  match s with
  | py_float x => py_div (int 1) x
  | np_float64 x => Ok (int 1 / x)
  end.

(** *** class MOFAdsorptionSimulator *)

(** One entry of the Langmuir curve, [(q_max * K * P) / (1 + K * P)]. *)
Definition langmuir_point (q_max K P : F) : F :=
  (q_max * K * P) / (int 1 + K * P).

Definition langmuir_isotherm (P : list F) (q_max K : F) : list F :=
  map (langmuir_point q_max K) P.

Record simulation : Type := {
  humidity : list F;
  water_uptake : list F;
  daily_yield_L_kg_day : F;
  q_max : F;
  K : F;
  model : string
}.

(** [d.get(key, default)] *)
Definition dict_get (d : gmap string F) (key : string) (default : F) : F :=
  match d !! key with
  | Some v => v
  | None => default
  end.

Section NumPy.
(** [np.power], element by element, and [np.mean] *)
Variable np_power : F -> F -> F.
Variable np_mean : list F -> F.

Definition freundlich_isotherm (P : list F) (K_f : F) (n : scalar)
    : result (list F) :=
  e ← one_over n;
  Ok (map (fun p => K_f * np_power p e) P).

Definition toth_isotherm (P : list F) (q_max b : F) (t : scalar)
    : result (list F) :=
  e ← one_over t;
  Ok (map (fun p => q_max * (b * p) /
                    np_power (int 1 + np_power (b * p) (scalar_value t)) e) P).

Definition simulate_mof_performance (mof_properties : gmap string F)
    (humidity_range : list F) (temperature_K : F) : simulation :=
  let surface_area := dict_get mof_properties "surface_area_m2g" (int 1000) in
  let pore_volume := dict_get mof_properties "pore_volume_cm3g" (lit 5 10) in
  let hydrophilicity := dict_get mof_properties "hydrophilicity" (lit 5 10) in
  let max_uptake := dict_get mof_properties "max_water_uptake" (lit 3 10) in
  let q_max := max_uptake * (int 1 + lit 3 10 * hydrophilicity) in
  let K := lit 5 1 * hydrophilicity * (surface_area / int 1000) in
  let water_uptake := langmuir_isotherm humidity_range q_max K in
  let cycles_per_day := int 4 in
  let avg_uptake := np_mean water_uptake in
  let daily_yield := avg_uptake * cycles_per_day in
  {| humidity := humidity_range;
     water_uptake := water_uptake;
     daily_yield_L_kg_day := daily_yield;
     q_max := q_max;
     K := K;
     model := "langmuir" |}.

End NumPy.

(** A reference [np.mean]: the sum from the left over the length.  NumPy adds
    in blocks; in exact arithmetic the order of the additions is immaterial. *)
Definition mean_fold (l : list F) : F :=
  fold_left add l (int 0) / int (Z.of_nat (length l)).

End Simulator.

Section Optimizer.
Context {F : Type} `{Arith F}.
Local Open Scope py_scope.

(** *** class HighAltitudeOptimizer *)

(** The keys of [self.altitude_conditions]. *)
Inductive altitude_category : Set :=
| sea_level
| low_altitude
| mid_altitude
| high_altitude.

Record conditions : Type := {
  pressure_atm : F;
  temp_K : F;
  humidity_avg : F
}.

Definition altitude_conditions (c : altitude_category) : conditions :=
  match c with
  | sea_level =>
      {| pressure_atm := lit 1 1; temp_K := int 298; humidity_avg := lit 6 10 |}
  | low_altitude =>
      {| pressure_atm := lit 95 100; temp_K := int 295; humidity_avg := lit 5 10 |}
  | mid_altitude =>
      {| pressure_atm := lit 85 100; temp_K := int 288; humidity_avg := lit 4 10 |}
  | high_altitude =>
      {| pressure_atm := lit 7 10; temp_K := int 280; humidity_avg := lit 3 10 |}
  end.

Definition _categorize_altitude (altitude_m : F) : altitude_category :=
  if altitude_m <? int 500 then sea_level
  else if altitude_m <? int 1500 then low_altitude
  else if altitude_m <? int 3000 then mid_altitude
  else high_altitude.

(** A row of the material table: the identifier column and the six property
    columns [optimize_for_location] reads. *)
Record mof_row : Type := {
  Fips : Z;
  surface_area_m2g : F;
  pore_volume_cm3g : F;
  hydrophilicity : F;
  max_water_uptake : F;
  thermal_stability_K : F;
  cost_per_kg : F
}.

(** A row of the returned table: the input row and the two added columns. *)
Record ranked_row : Type := {
  material : mof_row;
  performance_score : F;
  estimated_daily_yield : F
}.

(** [np.clip(x, lo, hi)]: NaN stays NaN. *)
Definition np_clip (x lo hi : F) : F :=
  if isnan x then x
  else if x <? lo then lo
  else if hi <? x then hi
  else x.

(** The four factors, per row (the code computes them column by column). *)
Definition humidity_factor (c : conditions) (r : mof_row) : F :=
  hydrophilicity r / humidity_avg c.

Definition temp_factor (c : conditions) (r : mof_row) : F :=
  np_clip (thermal_stability_K r / temp_K c) (lit 8 10) (lit 12 10).

Definition capacity_factor (r : mof_row) : F :=
  (surface_area_m2g r / int 1000) * pore_volume_cm3g r.

Definition cost_factor (r : mof_row) : F :=
  int 1 / (cost_per_kg r / int 50).

(** The row with its two new columns. *)
Definition score_row (c : conditions) (r : mof_row) : ranked_row :=
  {| material := r;
     performance_score :=
       lit 3 10 * humidity_factor c r +
       lit 25 100 * temp_factor c r +
       lit 25 100 * capacity_factor r +
       lit 2 10 * cost_factor r;
     estimated_daily_yield :=
       max_water_uptake r * humidity_avg c * int 4 |}.

Section SortValues.
(** The NumPy sort behind [sort_values], default [kind='quicksort']: it
    returns the rows in ascending order of the key.  It is only called on
    keys that are not NaN. *)
Variable quicksort : forall R : Type, (R -> F) -> list R -> list R.

(** [df.sort_values(by, ascending=False)]: the rows whose key is NaN are set
    aside and come last, in their order ([na_position='last']); the others
    are reversed, sorted in ascending order, and reversed again. *)
Definition sort_values_descending {R : Type} (by_key : R -> F) (df : list R)
    : list R :=
  let non_nans := List.filter (fun r => negb (isnan (by_key r))) df in
  let nans := List.filter (fun r => isnan (by_key r)) df in
  rev (quicksort R by_key (rev non_nans)) ++ nans.

(** The input table is copied ([mof_df.copy()]) and the copy gets the two
    new columns: here, a new list of rows. *)
Definition optimize_for_location (mof_df : list mof_row)
    (location_data : gmap string F) : list ranked_row :=
  let altitude_category :=
    _categorize_altitude (dict_get location_data "altitude_m" (int 0)) in
  let conditions := altitude_conditions altitude_category in
  let mof_df := map (score_row conditions) mof_df in
  sort_values_descending performance_score mof_df.

End SortValues.

(** What NumPy promises of a sort of any [kind]: the rows come back
    rearranged, in ascending order of their keys. *)
Definition ascending {R : Type} (key : R -> F) (a b : R) : Prop :=
  (key a <=? key b) = true.

Definition sorts_ascending
    (sort : forall R : Type, (R -> F) -> list R -> list R) : Prop :=
  forall (R : Type) (key : R -> F) (l : list R),
    Permutation (sort R key l) l /\
    (Forall (fun r => isnan (key r) = false) l ->
     Sorted (ascending key) (sort R key l)).

(** The rows whose key equals [s], in the order they have in [l]. *)
Definition with_key {R : Type} (key : R -> F) (s : F) (l : list R) : list R :=
  List.filter (fun r => key r =? s) l.

(** What only [kind='stable'] (or ['mergesort']) promises in addition:
    rows with equal keys keep their relative order. *)
Definition keeps_ties
    (sort : forall R : Type, (R -> F) -> list R -> list R) : Prop :=
  forall (R : Type) (key : R -> F) (l : list R) (s : F),
    with_key key s (sort R key l) = with_key key s l.

(** Descending order of the key, the NaN keys last. *)
Definition descending {R : Type} (key : R -> F) (a b : R) : Prop :=
  (key b <=? key a) = true \/ isnan (key b) = true.

(** *** A sort that meets the contract and keeps ties *)

(** Insertion sort: [x] goes in front of the first row it is to come
    [before]. *)
Fixpoint insert_by {R : Type} (before : F -> F -> bool) (key : R -> F)
    (x : R) (l : list R) : list R :=
  match l with
  | [] => [x]
  | y :: l' =>
      if before (key x) (key y) then x :: l
      else y :: insert_by before key x l'
  end.

(** [x] goes in front of the rows with a greater or equal key: equal keys
    keep their order, as with [kind='stable']. *)
Definition stable_sort (R : Type) (key : R -> F) (l : list R) : list R :=
  fold_right (insert_by leb key) [] l.

(** *** NumPy's quicksort

    [sort_values] is called without [kind], so pandas sorts the scores with
    NumPy's [argsort(kind='quicksort')].  Below is that routine as NumPy's
    portable implementation computes it ([aquicksort_] of
    [npysort/quicksort]): an introsort on the array [tosort] of row
    positions.  A range [pl..pr] with [pr - pl > 16] is partitioned around
    the median of its first, middle and last key, the larger part is pushed
    on a stack and the smaller one is partitioned further; a range that is
    short enough is sorted by insertion.  NumPy builds that dispatch the
    sort to vectorised code order equal keys differently. *)

Section Quicksort.
Variable v : list F.

(** NumPy's [<] on floats, with NaN above every number. *)
Definition less (a b : F) : bool :=
  (a <? b) || (isnan b && negb (isnan a)).

(** [*p], [v[*p]] and [*p = x] *)
Definition entry (tosort : list nat) (p : Z) : nat :=
  nth (Z.to_nat p) tosort 0%nat.

Definition key_at (tosort : list nat) (p : Z) : F :=
  nth (entry tosort p) v (int 0).

Definition store (tosort : list nat) (p : Z) (x : nat) : list nat :=
  <[Z.to_nat p := x]> tosort.

Definition INTP_SWAP (tosort : list nat) (p q : Z) : list nat :=
  store (store tosort p (entry tosort q)) q (entry tosort p).

Definition swap_if_less (tosort : list nat) (p q : Z) : list nat :=
  if less (key_at tosort p) (key_at tosort q) then INTP_SWAP tosort p q
  else tosort.

(** [do ++pi; while (less(v[*pi], vp))] and
    [do --pj; while (less(vp, v[*pj]))]; [None] is a loop that was stopped
    before its end. *)
Fixpoint scan_up (fuel : nat) (tosort : list nat) (vp : F) (pi : Z)
    : option Z :=
  match fuel with
  | O => None
  | S fuel =>
      let pi := (pi + 1)%Z in
      if less (key_at tosort pi) vp then scan_up fuel tosort vp pi
      else Some pi
  end.

Fixpoint scan_down (fuel : nat) (tosort : list nat) (vp : F) (pj : Z)
    : option Z :=
  match fuel with
  | O => None
  | S fuel =>
      let pj := (pj - 1)%Z in
      if less vp (key_at tosort pj) then scan_down fuel tosort vp pj
      else Some pj
  end.

(** The partition loop: scan, stop when the scans meet, otherwise swap and
    go on.  It returns the positions and [pi]. *)
Fixpoint partition (fuel : nat) (tosort : list nat) (vp : F) (pi pj : Z)
    : option (list nat * Z) :=
  match fuel with
  | O => None
  | S fuel =>
      pi ← scan_up (length tosort) tosort vp pi;
      pj ← scan_down (length tosort) tosort vp pj;
      if (pj <=? pi)%Z then Some (tosort, pi)
      else partition fuel (INTP_SWAP tosort pi pj) vp pi pj
  end.

(** The inner loop of the insertion sort, for the entry [vi] taken from
    [pj], which is [distance] positions after [pl]:
    [while (pj > pl && less(vp, v[*pk])) *pj-- = *pk--;] and [*pj = vi]. *)
Fixpoint insert_entry (distance : nat) (tosort : list nat) (vi : nat) (vp : F)
    (pj : Z) : list nat :=
  match distance with
  | O => store tosort pj vi
  | S distance =>
      if less vp (key_at tosort (pj - 1))
      then insert_entry distance (store tosort pj (entry tosort (pj - 1)))
             vi vp (pj - 1)
      else store tosort pj vi
  end.

(** [for (pi = pl + 1; pi <= pr; ++pi)] *)
Definition insertion_sort (tosort : list nat) (pl pr : Z) : list nat :=
  fold_left
    (fun tosort distance =>
       let pi := (pl + Z.of_nat distance)%Z in
       let vi := entry tosort pi in
       insert_entry distance tosort vi (nth vi v (int 0)) pi)
    (seq 1 (Z.to_nat (pr - pl))) tosort.

(** The main loop, with the stack of the ranges still to sort and the
    depth each was pushed at.  When the depth left is negative NumPy
    switches to heapsort, which is not embedded: the result is [None]
    there, as it is when the loop was stopped before its end. *)
Fixpoint aquicksort_loop (fuel : nat) (tosort : list nat) (pl pr : Z)
    (stack : list (Z * Z * Z)) (cdepth : Z) : option (list nat) :=
  match fuel with
  | O => None
  | S fuel =>
      if (16 <? pr - pl)%Z then
        let pm := (pl + Z.shiftr (pr - pl) 1)%Z in
        let tosort := swap_if_less tosort pm pl in
        let tosort := swap_if_less tosort pr pm in
        let tosort := swap_if_less tosort pm pl in
        let vp := key_at tosort pm in
        let tosort := INTP_SWAP tosort pm (pr - 1) in
        '(tosort, pi) ← partition (length tosort) tosort vp pl (pr - 1)%Z;
        let tosort := INTP_SWAP tosort pi (pr - 1) in
        let cdepth := (cdepth - 1)%Z in
        if (pi - pl <? pr - pi)%Z
        then aquicksort_loop fuel tosort pl (pi - 1)
               ((pi + 1, pr, cdepth)%Z :: stack) cdepth
        else aquicksort_loop fuel tosort (pi + 1) pr
               ((pl, pi - 1, cdepth)%Z :: stack) cdepth
      else
        let tosort := insertion_sort tosort pl pr in
        match stack with
        | [] => Some tosort
        | (pl, pr, cdepth) :: stack =>
            if (cdepth <? 0)%Z then None
            else aquicksort_loop fuel tosort pl pr stack cdepth
        end
  end.

(** [v.argsort(kind='quicksort')]: the positions of the keys in ascending
    order. *)
Definition aquicksort : option (list nat) :=
  let num := length v in
  aquicksort_loop (2 * num + 1) (seq 0 num) 0 (Z.of_nat num - 1) []
    (Z.log2 (Z.of_nat num) * 2).

End Quicksort.

(** The rows in the order [aquicksort] gives for their keys.  Where
    [aquicksort] has no result the rows are returned as they are. *)
Definition numpy_quicksort (R : Type) (key : R -> F) (l : list R) : list R :=
  match aquicksort (map key l) with
  | Some positions => omap (fun i => l !! i) positions
  | None => l
  end.

End Optimizer.

Arguments altitude_conditions {F _} c.
Arguments conditions F : clear implicits.
Arguments mof_row F : clear implicits.
Arguments ranked_row F : clear implicits.
Arguments simulation F : clear implicits.
Arguments scalar F : clear implicits.

Section Scenario.
Context {F : Type} `{Arith F}.

(** The reference conditions [optimize_for_location] looks up for a site. *)
Definition location_conditions (location_data : gmap string F) : conditions F :=
  altitude_conditions
    (_categorize_altitude (dict_get location_data "altitude_m" (int 0))).

(** Rows that differ from [r] in one column. *)
Definition with_Fips (i : Z) (r : mof_row F) : mof_row F :=
  {| Fips := i;
     surface_area_m2g := surface_area_m2g r;
     pore_volume_cm3g := pore_volume_cm3g r;
     hydrophilicity := hydrophilicity r;
     max_water_uptake := max_water_uptake r;
     thermal_stability_K := thermal_stability_K r;
     cost_per_kg := cost_per_kg r |}.

Definition with_hydrophilicity (h : F) (r : mof_row F) : mof_row F :=
  {| Fips := Fips r;
     surface_area_m2g := surface_area_m2g r;
     pore_volume_cm3g := pore_volume_cm3g r;
     hydrophilicity := h;
     max_water_uptake := max_water_uptake r;
     thermal_stability_K := thermal_stability_K r;
     cost_per_kg := cost_per_kg r |}.

Definition with_cost_per_kg (c : F) (r : mof_row F) : mof_row F :=
  {| Fips := Fips r;
     surface_area_m2g := surface_area_m2g r;
     pore_volume_cm3g := pore_volume_cm3g r;
     hydrophilicity := hydrophilicity r;
     max_water_uptake := max_water_uptake r;
     thermal_stability_K := thermal_stability_K r;
     cost_per_kg := c |}.

(** The material of the end-to-end scenario, and the site of [main]:
    [{'altitude_m': 1200, 'humidity': 0.4, 'temp_K': 290}]. *)
Definition scenario_material : mof_row F :=
  {| Fips := 1;
     surface_area_m2g := int 1000;
     pore_volume_cm3g := lit 5 10;
     hydrophilicity := lit 5 10;
     max_water_uptake := lit 3 10;
     thermal_stability_K := int 600;
     cost_per_kg := int 50 |}.

Definition scenario_location : gmap string F :=
  {[ "altitude_m" := int 1200; "humidity" := lit 4 10; "temp_K" := int 290 ]}.

(** The same material as the mapping [simulate_mof_performance] takes, and
    a short humidity sequence. *)
Definition scenario_properties : gmap string F :=
  {[ "surface_area_m2g" := int 1000; "pore_volume_cm3g" := lit 5 10;
     "hydrophilicity" := lit 5 10; "max_water_uptake" := lit 3 10;
     "thermal_stability_K" := int 600; "cost_per_kg" := int 50 ]}.

Definition scenario_humidity : list F := [lit 1 10; lit 5 10; lit 9 10].

(** A table with equal scores: eighteen rows, [Fips] 1 to 18, the material
    of the scenario in the odd rows and the same material at 80 per kg in
    the even rows. *)
Definition tied_table : list (mof_row F) :=
  map (fun i =>
         with_Fips i (if Z.odd i then scenario_material
                      else with_cost_per_kg (int 80) scenario_material))
      (map Z.of_nat (seq 1 18)).

End Scenario.

(** ** Further rows, and the reporting function *)

Section MoreRows.
Context {F : Type} `{Arith F}.

Definition with_surface_area_m2g (a : F) (r : mof_row F) : mof_row F :=
  {| Fips := Fips r;
     surface_area_m2g := a;
     pore_volume_cm3g := pore_volume_cm3g r;
     hydrophilicity := hydrophilicity r;
     max_water_uptake := max_water_uptake r;
     thermal_stability_K := thermal_stability_K r;
     cost_per_kg := cost_per_kg r |}.

Definition with_thermal_stability_K (t : F) (r : mof_row F) : mof_row F :=
  {| Fips := Fips r;
     surface_area_m2g := surface_area_m2g r;
     pore_volume_cm3g := pore_volume_cm3g r;
     hydrophilicity := hydrophilicity r;
     max_water_uptake := max_water_uptake r;
     thermal_stability_K := t;
     cost_per_kg := cost_per_kg r |}.

End MoreRows.

(** *** class RealityStreamIntegrator: [generate_ai_insights]

    The function reads columns of the caller's table, adds a column to it,
    and raises [KeyError] at the first column it does not find.  It is
    embedded as a step on the table: the table after the call, and the
    value returned or the exception raised. *)

Inductive outcome (A : Type) : Type :=
| Done (a : A)
| Failed (e : exn).
Arguments Done {A} a.
Arguments Failed {A} e.

Section Insights.
Context {F : Type} `{Arith F}.
Local Open Scope py_scope.

(** A table whose columns are all numeric: the number of rows and the
    columns in their order, each with its name and one value per row.  The
    names are distinct in a table read from a CSV file. *)
Record frame : Type := {
  index_len : nat;
  columns : list (string * list F)
}.

(** [df[name]] *)
Fixpoint lookup_column (cols : list (string * list F)) (name : string)
    : option (list F) :=
  match cols with
  | [] => None
  | (n, v) :: cols' =>
      if String.eqb n name then Some v else lookup_column cols' name
  end.

Definition column (df : frame) (name : string) : option (list F) :=
  lookup_column (columns df) name.

(** [df[name] = values]: an existing column is replaced where it stands, a
    new one goes last. *)
Fixpoint assign_column (cols : list (string * list F)) (name : string)
    (values : list F) : list (string * list F) :=
  match cols with
  | [] => [(name, values)]
  | (n, v) :: cols' =>
      if String.eqb n name then (n, values) :: cols'
      else (n, v) :: assign_column cols' name values
  end.

Definition set_column (df : frame) (name : string) (values : list F) : frame :=
  {| index_len := index_len df;
     columns := assign_column (columns df) name values |}.

(** The pandas reductions of a column, and the row positions
    [nlargest(n, column)] selects, in the order of the result. *)
Record pandas : Type := {
  series_mean : list F -> F;
  series_std : list F -> F;
  series_min : list F -> F;
  series_max : list F -> F;
  series_median : list F -> F;
  nlargest_positions : nat -> list F -> list nat
}.

(** A step of the function: it reads and may change the caller's table,
    and returns or raises. *)
Definition step (A : Type) : Type := frame -> frame * outcome A.

Definition step_ret {A : Type} (a : A) : step A := fun df => (df, Done a).

Definition step_bind {A B : Type} (m : step A) (k : A -> step B) : step B :=
  fun df =>
    match m df with
    | (df', Done a) => k a df'
    | (df', Failed e) => (df', Failed e)
    end.

Definition get_column (name : string) : step (list F) :=
  fun df =>
    match column df name with
    | Some v => (df, Done v)
    | None => (df, Failed (KeyError name))
    end.

Definition put_column (name : string) (values : list F) : step unit :=
  fun df => (set_column df name values, Done tt).

Definition the_frame : step frame := fun df => (df, Done df).

(** [other[name]], for a table other than the caller's. *)
Definition frame_column (other : frame) (name : string) : step (list F) :=
  fun df =>
    match column other name with
    | Some v => (df, Done v)
    | None => (df, Failed (KeyError name))
    end.

#[export] Instance step_mret : MRet step := @step_ret.
#[export] Instance step_mbind : MBind step :=
  fun A B k m => step_bind m k.


Variable pd : pandas.

Definition take_rows (positions : list nat) (values : list F) : list F :=
  omap (fun i => values !! i) positions.

(** [df.nlargest(n, name)]: the selected rows, all columns. *)
Definition nlargest (n : nat) (name : string) : step frame :=
  fun df =>
    match column df name with
    | Some key =>
        let positions := nlargest_positions pd n key in
        (df, Done {| index_len := length positions;
                     columns := map (fun '(c, v) => (c, take_rows positions v))
                                    (columns df) |})
    | None => (df, Failed (KeyError name))
    end.

Record statistics : Type := {
  stat_mean : F;
  stat_std : F;
  stat_min : F;
  stat_max : F;
  stat_median : F
}.

Record key_finding : Type := {
  finding : string;
  counties : list F;
  values : list F
}.

Record dataset_information : Type := {
  name : string;
  description : string;
  num_samples : nat;
  num_features : Z
}.

Record insights : Type := {
  dataset_info : dataset_information;
  feature_statistics : list (string * statistics);
  key_findings : list key_finding;
  recommendations : list string
}.

Definition describe (v : list F) : statistics :=
  {| stat_mean := series_mean pd v;
     stat_std := series_std pd v;
     stat_min := series_min pd v;
     stat_max := series_max pd v;
     stat_median := series_median pd v |}.

Definition generate_ai_insights : step insights :=
  features ← the_frame;
  let dataset_info :=
    {| name := "MOF Water Capture";
       description :=
         "Metal-Organic Framework atmospheric water capture for AI datacenters";
       num_samples := index_len features;
       num_features := Z.of_nat (length (columns features)) - 1 |} in
  let numeric_cols := columns features in
  let feature_statistics :=
    map (fun '(col, v) => (col, describe v))
      (List.filter (fun '(col, _) => negb (String.eqb col "Fips"))
         numeric_cols) in
  top_surface_area ← nlargest 3 "surface_area_m2g";
  counties_1 ← frame_column top_surface_area "Fips";
  values_1 ← frame_column top_surface_area "surface_area_m2g";
  top_yield ← nlargest 3 "daily_water_yield";
  counties_2 ← frame_column top_yield "Fips";
  values_2 ← frame_column top_yield "daily_water_yield";
  daily_water_yield ← get_column "daily_water_yield";
  cost_per_kg ← get_column "cost_per_kg";
  put_column "cost_effectiveness" (zip_with div daily_water_yield cost_per_kg);;
  top_cost_effective ← nlargest 3 "cost_effectiveness";
  counties_3 ← frame_column top_cost_effective "Fips";
  values_3 ← frame_column top_cost_effective "cost_effectiveness";
  hydrophilicity ← get_column "hydrophilicity";
  let avg_hydrophilicity := series_mean pd hydrophilicity in
  let recommendations_1 :=
    if avg_hydrophilicity <? lit 6 10
    then ["Consider MOFs with higher hydrophilicity (>0.7) for improved low-humidity performance"]
    else [] in
  thermal_stability_K ← get_column "thermal_stability_K";
  let avg_thermal_stability := series_mean pd thermal_stability_K in
  let recommendations_2 :=
    if avg_thermal_stability <? int 600
    then ["Prioritize MOFs with thermal stability >600K for reliable temperature-swing operation"]
    else [] in
  mret
    {| dataset_info := dataset_info;
       feature_statistics := feature_statistics;
       key_findings :=
         [ {| finding := "Top Surface Area MOFs";
              counties := counties_1; values := values_1 |};
           {| finding := "Highest Daily Water Yield";
              counties := counties_2; values := values_2 |};
           {| finding := "Most Cost-Effective MOFs";
              counties := counties_3; values := values_3 |} ];
       recommendations := recommendations_1 ++ recommendations_2 |}.

End Insights.

Arguments frame F : clear implicits.
Arguments pandas F : clear implicits.
Arguments insights F : clear implicits.
Arguments statistics F : clear implicits.
Arguments key_finding F : clear implicits.

Section InsightsScenario.
Context {F : Type} `{Arith F}.

(** Whether the table lacks the column. *)
Definition missing (df : frame F) (n : string) : bool :=
  match column df n with
  | Some _ => false
  | None => true
  end.

(** A pandas to run the function with: the mean is [mean_fold], the
    smallest and largest values are found by comparison, and [nlargest]
    takes the rows in descending order of the key, the first of equal keys
    first.  The standard deviation and the median are not computed (no
    statement below depends on them). *)
Definition reference_pandas : pandas F :=
  {| series_mean := mean_fold;
     series_std := fun _ => int 0;
     series_min := fun v =>
       fold_right (fun x m => if ltb x m then x else m) (List.hd (int 0) v) v;
     series_max := fun v =>
       fold_right (fun x m => if ltb m x then x else m) (List.hd (int 0) v) v;
     series_median := fun _ => int 0;
     nlargest_positions := fun n key =>
       map fst
         (List.firstn n
            (rev (stable_sort (nat * F) snd
                    (rev (combine (seq 0 (length key)) key))))) |}.

(** A table of three materials with the columns the function reads. *)
Definition scenario_frame : frame F :=
  {| index_len := 3;
     columns :=
       [ ("Fips", [int 1; int 2; int 3]);
         ("surface_area_m2g", [int 1000; int 1500; int 800]);
         ("hydrophilicity", [lit 5 10; lit 7 10; lit 6 10]);
         ("thermal_stability_K", [int 600; int 650; int 700]);
         ("cost_per_kg", [int 50; int 80; int 40]);
         ("daily_water_yield", [lit 6 10; lit 9 10; lit 5 10]) ] |}.

End InsightsScenario.

(** * Properties *)

(** ** The two instances satisfy the order laws *)

Lemma Qltb_lt (x y : Q) : Qltb x y = true <-> (x < y)%Q.
Proof. unfold Qltb, Qlt. apply Z.ltb_lt. Qed.

Lemma Qltb_ge (x y : Q) : Qltb x y = false <-> (y <= x)%Q.
Proof. unfold Qltb, Qle. apply Z.ltb_ge. Qed.

#[export] Instance exact_order : ArithOrder Q.
Proof.
  split; cbn.
  - intros x y Hxy. apply Qle_bool_iff in Hxy. now apply Qltb_ge.
  - intros x y Hxy. apply Qltb_lt in Hxy. apply Qle_bool_iff.
    now apply Qlt_le_weak.
  - intros x y _ _ Hxy. apply Qltb_ge in Hxy. now apply Qle_bool_iff.
  - intros x y z Hxy Hyz. apply Qle_bool_iff in Hxy, Hyz. apply Qle_bool_iff.
    now apply Qle_trans with y.
  - intros x y Hxy. apply Qeq_bool_iff in Hxy. apply Qle_bool_iff.
    rewrite Hxy. apply Qle_refl.
  - intros x y Hxy. apply Qeq_bool_iff in Hxy. apply Qeq_bool_iff.
    now symmetry.
  - intros x y z Hxy Hyz. apply Qeq_bool_iff in Hxy, Hyz. apply Qeq_bool_iff.
    now transitivity y.
  - discriminate.
  - discriminate.
  - reflexivity.
  - intros m n Hmn _. apply Qle_bool_iff. unfold Qle. cbn. lia.
Qed.

(** The literals of the program, as Rocq reads the same decimals. *)
Lemma float_lit_decimals :
  map (fun '(n, d) => float_lit n (Z.to_pos d))
    [(3, 10); (5, 10); (25, 100); (2, 10); (8, 10); (12, 10); (6, 10);
     (4, 10); (95, 100); (85, 100); (7, 10); (5, 1); (1000, 1); (50, 1)]%Z
  = [0.3; 0.5; 0.25; 0.2; 0.8; 1.2; 0.6; 0.4; 0.95; 0.85; 0.7; 5; 1000;
     50]%float.
Proof. vm_compute. reflexivity. Qed.

(** The comparison of the IEEE specification, read off [SFcompare]. *)
Lemma SFcompare_antisym (a b : spec_float) :
  SFcompare b a = option_map CompOpp (SFcompare a b).
Proof.
  destruct a as [sa|sa| |sa ma ea], b as [sb|sb| |sb mb eb]; cbn;
    try reflexivity; try (destruct sa; reflexivity);
    try (destruct sb; reflexivity); try (destruct sa, sb; reflexivity).
  destruct sa, sb; cbn; try reflexivity;
    rewrite (Z.compare_antisym ea eb); destruct (ea ?= eb)%Z; cbn;
    try reflexivity; f_equal;
    change (Pos.compare_cont Eq mb ma) with (Pos.compare mb ma);
    change (Pos.compare_cont Eq ma mb) with (Pos.compare ma mb);
    rewrite (Pos.compare_antisym ma mb); destruct (ma ?= mb)%positive;
    reflexivity.
Qed.

Lemma SFcompare_None (a b : spec_float) :
  SFcompare a b = None -> a = S754_nan \/ b = S754_nan.
Proof.
  destruct a as [sa|sa| |sa ma ea], b as [sb|sb| |sb mb eb]; cbn; auto;
    discriminate.
Qed.

Lemma SFcompare_refl (a : spec_float) :
  a <> S754_nan -> SFcompare a a = Some Eq.
Proof.
  destruct a as [sa|sa| |sa ma ea]; cbn; intros Ha;
    try reflexivity; try congruence.
  - destruct sa; reflexivity.
  - change (Pos.compare_cont Eq ma ma) with (Pos.compare ma ma).
    rewrite Z.compare_refl, Pos.compare_refl. destruct sa; reflexivity.
Qed.

Lemma SFcompare_Eq_trans (a b c : spec_float) :
  SFcompare a b = Some Eq -> SFcompare b c = Some Eq ->
  SFcompare a c = Some Eq.
Proof.
  assert (Hfin : forall (s1 s2 : bool) m1 e1 m2 e2,
    SFcompare (S754_finite s1 m1 e1) (S754_finite s2 m2 e2) = Some Eq ->
    s1 = s2 /\ m1 = m2 /\ e1 = e2).
  { intros s1 s2 m1 e1 m2 e2. cbn.
    change (Pos.compare_cont Eq m1 m2) with (Pos.compare m1 m2).
    destruct s1, s2; try discriminate;
      destruct (e1 ?= e2)%Z eqn:He; try discriminate;
      destruct (m1 ?= m2)%positive eqn:Hm; try discriminate;
      intros _; apply Z.compare_eq in He; apply Pos.compare_eq in Hm; auto. }
  destruct a as [sa|sa| |sa ma ea], b as [sb|sb| |sb mb eb];
    try discriminate; try (destruct sa; discriminate);
    try (destruct sb; discriminate);
    destruct c as [sc|sc| |sc mc ec];
    try discriminate; try (destruct sb; discriminate);
    try (destruct sc; discriminate); try reflexivity.
  - destruct sa, sb, sc; cbn; congruence.
  - intros Hab Hbc. apply Hfin in Hab as (-> & -> & ->). exact Hbc.
Qed.

Lemma is_nan_spec (x : float) :
  PrimFloat.is_nan x = true <-> Prim2SF x = S754_nan.
Proof.
  unfold PrimFloat.is_nan. rewrite FloatAxioms.eqb_spec. unfold SFeqb. split.
  - intros Hx. destruct (Prim2SF x) eqn:E; try reflexivity;
      rewrite SFcompare_refl in Hx by discriminate; discriminate.
  - intros ->. reflexivity.
Qed.

Lemma is_nan_false_spec (x : float) :
  PrimFloat.is_nan x = false <-> Prim2SF x <> S754_nan.
Proof.
  rewrite <- is_nan_spec. destruct (PrimFloat.is_nan x); split; congruence.
Qed.

Lemma SFleb_trans (a b c : spec_float) :
  SFleb a b = true -> SFleb b c = true -> SFleb a c = true.
Proof.
  unfold SFleb.
  destruct a as [sa|sa| |sa ma ea], b as [sb|sb| |sb mb eb];
    try discriminate;
    destruct c as [sc|sc| |sc mc ec]; try discriminate.
  all: try (destruct sa, sb; cbn; try discriminate; try reflexivity; fail).
  all: try (destruct sb, sc; cbn; try discriminate; try reflexivity; fail).
  all: try (destruct sa, sc; cbn; try discriminate; try reflexivity; fail).
  all: try (destruct sa, sb, sc; cbn; try discriminate; try reflexivity; fail).
  cbn.
  change (Pos.compare_cont Eq ma mb) with (Pos.compare ma mb).
  change (Pos.compare_cont Eq mb mc) with (Pos.compare mb mc).
  change (Pos.compare_cont Eq ma mc) with (Pos.compare ma mc).
  destruct sa, sb, sc; try discriminate; try reflexivity;
    destruct (Z.compare_spec ea eb), (Z.compare_spec eb ec),
      (Z.compare_spec ea ec);
    try discriminate; try reflexivity; try lia;
    destruct (Pos.compare_spec ma mb), (Pos.compare_spec mb mc),
      (Pos.compare_spec ma mc);
    cbn; try discriminate; try reflexivity; try lia.
Qed.

(** A property of the integers below 4096, checked on each of them. *)
Lemma below_4096 (f : Z -> bool) :
  forallb (fun k => f (Z.of_nat k)) (seq 0 (Z.to_nat 4096)) = true ->
  forall n : Z, (0 <= n < 4096)%Z -> f n = true.
Proof.
  intros Hall n Hn. rewrite forallb_forall in Hall.
  specialize (Hall (Z.to_nat n)). rewrite Z2Nat.id in Hall by lia.
  apply Hall, in_seq. lia.
Qed.

Lemma float_int_not_nan (n : Z) :
  (0 <= n < 4096)%Z -> PrimFloat.is_nan (float_lit n 1) = false.
Proof.
  intros Hn. apply negb_true_iff.
  apply (below_4096 (fun k => negb (PrimFloat.is_nan (float_lit k 1))));
    [vm_compute; reflexivity|exact Hn].
Qed.

Lemma float_int_leb_succ (n : Z) :
  (0 <= n < 4096)%Z ->
  PrimFloat.leb (float_lit n 1) (float_lit (n + 1) 1) = true.
Proof.
  apply (below_4096
    (fun k => PrimFloat.leb (float_lit k 1) (float_lit (k + 1) 1))).
  vm_compute; reflexivity.
Qed.

Lemma float_leb_trans (x y z : float) :
  PrimFloat.leb x y = true -> PrimFloat.leb y z = true ->
  PrimFloat.leb x z = true.
Proof. rewrite !FloatAxioms.leb_spec. apply SFleb_trans. Qed.

Lemma float_int_leb_mono (m n : Z) :
  (0 <= m <= n)%Z -> (n < 4096)%Z ->
  PrimFloat.leb (float_lit m 1) (float_lit n 1) = true.
Proof.
  intros Hmn Hn.
  replace n with (m + Z.of_nat (Z.to_nat (n - m)))%Z by lia.
  assert (Hk : (m + Z.of_nat (Z.to_nat (n - m)) < 4096)%Z) by lia.
  induction (Z.to_nat (n - m)) as [|k IH].
  - rewrite Z.add_0_r, FloatAxioms.leb_spec. unfold SFleb.
    rewrite SFcompare_refl; [reflexivity|].
    apply is_nan_false_spec, float_int_not_nan. lia.
  - apply float_leb_trans with (float_lit (m + Z.of_nat k) 1).
    + apply IH. lia.
    + replace (m + Z.of_nat (S k))%Z with (m + Z.of_nat k + 1)%Z by lia.
      apply float_int_leb_succ. lia.
Qed.

#[export] Instance binary64_order : ArithOrder float.
Proof.
  split; cbn.
  - intros x y. rewrite FloatAxioms.leb_spec, FloatAxioms.ltb_spec.
    unfold SFleb, SFltb. rewrite (SFcompare_antisym (Prim2SF x) (Prim2SF y)).
    destruct (SFcompare (Prim2SF x) (Prim2SF y)) as [[]|]; cbn; congruence.
  - intros x y. rewrite FloatAxioms.leb_spec, FloatAxioms.ltb_spec.
    unfold SFleb, SFltb.
    destruct (SFcompare (Prim2SF x) (Prim2SF y)) as [[]|]; cbn; congruence.
  - intros x y Hx Hy. apply is_nan_false_spec in Hx, Hy.
    rewrite FloatAxioms.leb_spec, FloatAxioms.ltb_spec.
    unfold SFleb, SFltb. rewrite (SFcompare_antisym (Prim2SF x) (Prim2SF y)).
    destruct (SFcompare (Prim2SF x) (Prim2SF y)) as [[]|] eqn:E; cbn;
      try congruence.
    apply SFcompare_None in E. tauto.
  - exact float_leb_trans.
  - intros x y. rewrite FloatAxioms.leb_spec, FloatAxioms.eqb_spec.
    unfold SFleb, SFeqb.
    destruct (SFcompare (Prim2SF x) (Prim2SF y)) as [[]|]; cbn; congruence.
  - intros x y. rewrite !FloatAxioms.eqb_spec. unfold SFeqb.
    rewrite (SFcompare_antisym (Prim2SF x) (Prim2SF y)).
    destruct (SFcompare (Prim2SF x) (Prim2SF y)) as [[]|]; cbn; congruence.
  - intros x y z. rewrite !FloatAxioms.eqb_spec. unfold SFeqb.
    destruct (SFcompare (Prim2SF x) (Prim2SF y)) as [[]|] eqn:E1;
      try discriminate.
    destruct (SFcompare (Prim2SF y) (Prim2SF z)) as [[]|] eqn:E2;
      try discriminate.
    now rewrite (SFcompare_Eq_trans _ _ _ E1 E2).
  - intros x y Hx. apply is_nan_spec in Hx.
    rewrite FloatAxioms.ltb_spec. unfold SFltb. now rewrite Hx.
  - intros x y Hx. apply is_nan_spec in Hx.
    rewrite FloatAxioms.eqb_spec. unfold SFeqb. now rewrite Hx.
  - exact float_int_not_nan.
  - exact float_int_leb_mono.
Qed.

(** ** Sorting *)

Section SortFacts.
Context {F : Type} `{ArithOrder F}.
Local Open Scope py_scope.

Lemma leb_total (x y : F) :
  isnan x = false -> isnan y = false -> (x <=? y) = false -> (y <=? x) = true.
Proof.
  intros Hx Hy Hxy. apply ltb_false_leb; try assumption.
  destruct (x <? y) eqn:E; [|reflexivity].
  apply ltb_leb_true in E. congruence.
Qed.

Lemma eqb_not_nan (x s : F) : (x =? s) = true -> isnan x = false.
Proof.
  intros Hx. destruct (isnan x) eqn:E; [|reflexivity].
  rewrite (nan_eqb_l x s E) in Hx. discriminate.
Qed.

Section Lists.
Context {R : Type}.

Lemma Sorted_weaken (S T : R -> R -> Prop) (l : list R) :
  (forall a b, S a b -> T a b) -> Sorted S l -> Sorted T l.
Proof.
  intros HST Hl. induction Hl as [|a l Hl IH Hhd]; constructor.
  - exact IH.
  - destruct Hhd; constructor. now apply HST.
Qed.

Lemma Sorted_snoc (S : R -> R -> Prop) (l : list R) (a : R) :
  Sorted S l -> HdRel (flip S) a (rev l) -> Sorted S (l ++ [a]).
Proof.
  induction l as [|x l IH]; intros Hl Ha; cbn.
  - repeat constructor.
  - apply Sorted_inv in Hl as [Hl Hx]. cbn in Ha.
    destruct l as [|y l].
    + cbn in *. apply HdRel_inv in Ha. repeat constructor. exact Ha.
    + constructor.
      * apply IH; [exact Hl|].
        destruct (rev (y :: l)) as [|z r] eqn:E.
        -- constructor.
        -- apply HdRel_inv in Ha. now constructor.
      * apply HdRel_inv in Hx. now constructor.
Qed.

Lemma Sorted_rev (S : R -> R -> Prop) (l : list R) :
  Sorted S l -> Sorted (flip S) (rev l).
Proof.
  induction 1 as [|a l Hl IH Hhd]; cbn.
  - constructor.
  - apply Sorted_snoc; [exact IH|]. rewrite rev_involutive.
    destruct Hhd; constructor; assumption.
Qed.

Lemma filter_split_Permutation (p : R -> bool) (l : list R) :
  Permutation (List.filter (fun r => negb (p r)) l ++ List.filter p l) l.
Proof.
  induction l as [|a l IH]; cbn; [constructor|].
  destruct (p a); cbn.
  - symmetry. apply Permutation_cons_app. now symmetry.
  - now constructor.
Qed.

Variable key : R -> F.

Lemma Sorted_descending_nans (d n : list R) :
  Sorted (descending key) d ->
  Forall (fun r => isnan (key r) = true) n ->
  Sorted (descending key) (d ++ n).
Proof.
  intros Hd Hn. induction Hd as [|a d Hd IH Hhd]; cbn.
  - induction Hn as [|b n Hb Hn IHn]; constructor; [exact IHn|].
    destruct Hn; constructor. now right.
  - constructor; [exact IH|].
    destruct Hhd as [|b d Hab]; cbn.
    + destruct Hn; constructor. now right.
    + now constructor.
Qed.

Lemma with_key_not_nan (s : F) (l : list R) :
  with_key key s (List.filter (fun r => negb (isnan (key r))) l)
  = with_key key s l.
Proof.
  unfold with_key. induction l as [|a l IH]; cbn; [reflexivity|].
  destruct (key a =? s) eqn:E.
  - rewrite (eqb_not_nan _ _ E). cbn. now rewrite E, IH.
  - destruct (isnan (key a)); cbn; [|rewrite E]; exact IH.
Qed.

Lemma with_key_nan (s : F) (l : list R) :
  with_key key s (List.filter (fun r => isnan (key r)) l) = [].
Proof.
  unfold with_key. induction l as [|a l IH]; cbn; [reflexivity|].
  destruct (isnan (key a)) eqn:E; cbn; [|exact IH].
  now rewrite (nan_eqb_l _ s E).
Qed.

End Lists.

(** *** [sort_values] over a sort that meets the contract *)

Section Contract.
Variable quicksort : forall R : Type, (R -> F) -> list R -> list R.
Hypothesis quicksort_ok : sorts_ascending quicksort.
Context {R : Type} (key : R -> F).

Lemma sort_values_descending_Permutation (df : list R) :
  Permutation (sort_values_descending quicksort key df) df.
Proof.
  unfold sort_values_descending.
  rewrite <- Permutation_rev.
  rewrite (proj1 (quicksort_ok R key _)).
  rewrite <- Permutation_rev.
  apply filter_split_Permutation.
Qed.

Lemma sort_values_descending_Sorted (df : list R) :
  Sorted (descending key) (sort_values_descending quicksort key df).
Proof.
  unfold sort_values_descending.
  apply Sorted_descending_nans.
  - apply Sorted_weaken with (S := flip (ascending key)).
    + intros a b Hab. left. exact Hab.
    + apply Sorted_rev, (proj2 (quicksort_ok R key _)).
      apply List.Forall_rev, List.Forall_forall. intros r Hr.
      apply filter_In in Hr as [_ Hr]. now apply negb_true_iff.
  - apply List.Forall_forall. intros r Hr. now apply filter_In in Hr as [_ Hr].
Qed.

Lemma sort_values_descending_ties (df : list R) (s : F) :
  keeps_ties quicksort ->
  with_key key s (sort_values_descending quicksort key df) = with_key key s df.
Proof.
  intros Hties. unfold sort_values_descending.
  unfold with_key at 1. rewrite List.filter_app, List.filter_rev.
  fold (with_key key s (quicksort R key
    (rev (List.filter (fun r => negb (isnan (key r))) df)))).
  rewrite Hties. unfold with_key at 1.
  rewrite List.filter_rev, rev_involutive.
  fold (with_key key s (List.filter (fun r => negb (isnan (key r))) df)).
  fold (with_key key s (List.filter (fun r => isnan (key r)) df)).
  now rewrite with_key_not_nan, with_key_nan, app_nil_r.
Qed.

Lemma sort_values_descending_single (r : R) :
  sort_values_descending quicksort key [r] = [r].
Proof.
  apply Permutation_length_1_inv. symmetry.
  apply sort_values_descending_Permutation.
Qed.

End Contract.

(** *** The two insertion sorts *)

Section Insertion.
Variable before : F -> F -> bool.
Hypothesis before_leb : forall x y : F, before x y = true -> (x <=? y) = true.
Hypothesis not_before_leb : forall x y : F,
  isnan x = false -> isnan y = false -> before x y = false -> (y <=? x) = true.
Context {R : Type} (key : R -> F).

Lemma insert_by_Permutation (x : R) (l : list R) :
  Permutation (insert_by before key x l) (x :: l).
Proof.
  induction l as [|y l IH]; cbn; [reflexivity|].
  destruct (before (key x) (key y)); [reflexivity|].
  rewrite IH. constructor.
Qed.

Lemma insert_by_HdRel (x y : R) (l : list R) :
  ascending key y x -> HdRel (ascending key) y l ->
  HdRel (ascending key) y (insert_by before key x l).
Proof.
  intros Hyx Hy. destruct l as [|z l]; cbn.
  - now constructor.
  - apply HdRel_inv in Hy. destruct (before (key x) (key z)); now constructor.
Qed.

Lemma insert_by_Sorted (x : R) (l : list R) :
  isnan (key x) = false ->
  Forall (fun r => isnan (key r) = false) l ->
  Sorted (ascending key) l ->
  Sorted (ascending key) (insert_by before key x l).
Proof.
  intros Hx Hnan Hl. induction Hl as [|y l Hl IH Hy]; cbn.
  - repeat constructor.
  - apply Forall_cons_iff in Hnan as [Hny Hnan].
    destruct (before (key x) (key y)) eqn:E.
    + repeat constructor; try assumption. now apply before_leb.
    + constructor; [now apply IH|].
      apply insert_by_HdRel; [|exact Hy].
      now apply not_before_leb.
Qed.

Lemma fold_insert_by_Permutation (l : list R) :
  Permutation (fold_right (insert_by before key) [] l) l.
Proof.
  induction l as [|x l IH]; cbn; [constructor|].
  rewrite insert_by_Permutation. now constructor.
Qed.

Lemma fold_insert_by_Sorted (l : list R) :
  Forall (fun r => isnan (key r) = false) l ->
  Sorted (ascending key) (fold_right (insert_by before key) [] l).
Proof.
  induction l as [|x l IH]; cbn; intros Hnan; [constructor|].
  apply Forall_cons_iff in Hnan as [Hx Hnan].
  apply insert_by_Sorted; [exact Hx| |now apply IH].
  apply List.Forall_forall. intros r Hr.
  rewrite List.Forall_forall in Hnan. apply Hnan.
  eapply Permutation_in; [apply fold_insert_by_Permutation|exact Hr].
Qed.

End Insertion.

Lemma stable_sort_ok : sorts_ascending stable_sort.
Proof.
  intros R key l. unfold stable_sort. split.
  - apply fold_insert_by_Permutation.
  - apply fold_insert_by_Sorted; [auto|]. apply leb_total.
Qed.

(** Inserting in front of the greater or equal keys passes no equal key. *)
Lemma insert_by_leb_with_key {R : Type} (key : R -> F) (s : F) (x : R)
    (l : list R) :
  with_key key s (insert_by leb key x l) = with_key key s (x :: l).
Proof.
  unfold with_key. induction l as [|y l IH]; cbn; [reflexivity|].
  destruct (key x <=? key y) eqn:E; cbn; [reflexivity|].
  cbn in IH. rewrite IH.
  destruct (key x =? s) eqn:Ex; [|reflexivity].
  destruct (key y =? s) eqn:Ey; [|reflexivity].
  apply eqb_sym_true in Ey.
  rewrite (eqb_leb_true _ _ (eqb_trans_true _ _ _ Ex Ey)) in E. discriminate.
Qed.

Lemma stable_sort_keeps_ties : keeps_ties stable_sort.
Proof.
  intros R key l s. unfold stable_sort.
  induction l as [|x l IH]; cbn [fold_right]; [reflexivity|].
  rewrite insert_by_leb_with_key. unfold with_key in *. cbn [List.filter].
  now rewrite IH.
Qed.

End SortFacts.

(** ** The isotherm model *)

Section SimulatorFacts.
Context {F : Type} `{Arith F}.
Local Open Scope py_scope.

(** C2: on a material that has [surface_area_m2g], [hydrophilicity] and
    [max_water_uptake], and any humidity sequence, [simulate_mof_performance]
    returns [q_max = max_water_uptake * (1 + 0.3 * hydrophilicity)],
    [K = 5.0 * hydrophilicity * (surface_area_m2g / 1000)], the Langmuir
    curve of the humidity sequence at these parameters, the daily yield
    [mean(uptake) * 4], and the model name "langmuir". *)
Theorem simulate_mof_performance_returns (np_mean : list F -> F)
    (mof_properties : gmap string F) (humidity_range : list F)
    (temperature_K sa h mu : F) :
  mof_properties !! "surface_area_m2g" = Some sa ->
  mof_properties !! "hydrophilicity" = Some h ->
  mof_properties !! "max_water_uptake" = Some mu ->
  let qMax := mu * (int 1 + lit 3 10 * h) in
  let k := lit 5 1 * h * (sa / int 1000) in
  simulate_mof_performance np_mean mof_properties humidity_range temperature_K =
  {| humidity := humidity_range;
     water_uptake := langmuir_isotherm humidity_range qMax k;
     daily_yield_L_kg_day :=
       np_mean (langmuir_isotherm humidity_range qMax k) * int 4;
     q_max := qMax;
     K := k;
     model := "langmuir" |}.
Proof.
  intros Hsa Hh Hmu. unfold simulate_mof_performance, dict_get.
  rewrite Hsa, Hh, Hmu. reflexivity.
Qed.

(** C9: the result of [simulate_mof_performance] does not depend on its
    [temperature_K] argument: two calls that differ only in it return the
    same result. *)
Theorem simulate_mof_performance_ignores_temperature (np_mean : list F -> F)
    (mof_properties : gmap string F) (humidity_range : list F)
    (temperature_K temperature_K' : F) :
  simulate_mof_performance np_mean mof_properties humidity_range temperature_K =
  simulate_mof_performance np_mean mof_properties humidity_range temperature_K'.
Proof.
  unfold simulate_mof_performance. reflexivity.
Qed.

Lemma dict_get_absent (d : gmap string F) (key : string) (default : F) :
  d !! key = None -> dict_get d key default = default.
Proof. unfold dict_get. now intros ->. Qed.

Lemma dict_get_insert (d : gmap string F) (key : string) (v default : F) :
  dict_get (<[key := v]> d) key default = v.
Proof. unfold dict_get. now rewrite lookup_insert_eq. Qed.

Lemma dict_get_insert_ne (d : gmap string F) (key key' : string)
    (v default : F) :
  key <> key' ->
  dict_get (<[key := v]> d) key' default = dict_get d key' default.
Proof. intros Hne. unfold dict_get. now rewrite lookup_insert_ne. Qed.

(** C10: [simulate_mof_performance] is defined on every mapping, and a
    missing [surface_area_m2g], [pore_volume_cm3g], [hydrophilicity] or
    [max_water_uptake] counts as 1000, 0.5, 0.5 and 0.3: the result is the
    one for the mapping with that value filled in. *)
Theorem simulate_mof_performance_defaults (np_mean : list F -> F)
    (mof_properties : gmap string F) (humidity_range : list F)
    (temperature_K : F) :
  let run m := simulate_mof_performance np_mean m humidity_range temperature_K in
  (mof_properties !! "surface_area_m2g" = None ->
   run mof_properties = run (<["surface_area_m2g" := int 1000]> mof_properties)) /\
  (mof_properties !! "pore_volume_cm3g" = None ->
   run mof_properties = run (<["pore_volume_cm3g" := lit 5 10]> mof_properties)) /\
  (mof_properties !! "hydrophilicity" = None ->
   run mof_properties = run (<["hydrophilicity" := lit 5 10]> mof_properties)) /\
  (mof_properties !! "max_water_uptake" = None ->
   run mof_properties = run (<["max_water_uptake" := lit 3 10]> mof_properties)).
Proof.
  cbv zeta. unfold simulate_mof_performance.
  repeat split; intros Habs;
    rewrite ?dict_get_insert, ?dict_get_insert_ne by discriminate;
    rewrite ?(dict_get_absent _ _ _ Habs); reflexivity.
Qed.

(** C7, as amended: with a Python float exponent, [freundlich_isotherm]
    raises [ZeroDivisionError] when [n = 0] and [toth_isotherm] raises it
    when [t = 0], and for every [n] other than zero [freundlich_isotherm]
    returns [K_f * P^(1/n)] and raises nothing; with a NumPy scalar exponent
    neither raises, whatever the exponent: [1/n] is NumPy's division, an
    infinity or NaN at zero, and is handed to [np.power]. *)
Theorem isotherm_zero_exponent (np_power : F -> F -> F) (P : list F)
    (K_f n q_max b t : F) :
  ((n =? int 0) = true ->
   freundlich_isotherm np_power P K_f (py_float n) = Raise ZeroDivisionError) /\
  ((t =? int 0) = true ->
   toth_isotherm np_power P q_max b (py_float t) = Raise ZeroDivisionError) /\
  ((n =? int 0) = false ->
   freundlich_isotherm np_power P K_f (py_float n) =
   Ok (map (fun p => K_f * np_power p (int 1 / n)) P)) /\
  freundlich_isotherm np_power P K_f (np_float64 n) =
    Ok (map (fun p => K_f * np_power p (int 1 / n)) P) /\
  toth_isotherm np_power P q_max b (np_float64 t) =
    Ok (map (fun p => q_max * (b * p) /
                      np_power (int 1 + np_power (b * p) t) (int 1 / t)) P).
Proof.
  unfold freundlich_isotherm, toth_isotherm, one_over, py_div.
  split; [|split; [|split; [|split]]];
    try (intros Hz; rewrite Hz); reflexivity.
Qed.

End SimulatorFacts.

(** ** The altitude bands *)

(** C4: [_categorize_altitude] returns [sea_level] below 500,
    [low_altitude] from 500 to below 1500, [mid_altitude] from 1500 to
    below 3000, and [high_altitude] in every other case; 499 is
    [sea_level], 500 and 1499 are [low_altitude], 3000 is
    [high_altitude]. *)
Theorem categorize_altitude_bands :
  (forall (F : Type) (A : Arith F), ArithOrder F -> forall altitude_m : F,
     (ltb altitude_m (int 500) = true ->
      _categorize_altitude altitude_m = sea_level) /\
     (leb (int 500) altitude_m = true -> ltb altitude_m (int 1500) = true ->
      _categorize_altitude altitude_m = low_altitude) /\
     (leb (int 1500) altitude_m = true -> ltb altitude_m (int 3000) = true ->
      _categorize_altitude altitude_m = mid_altitude) /\
     (ltb altitude_m (int 500) = false ->
      ~ (leb (int 500) altitude_m = true /\
         ltb altitude_m (int 1500) = true) ->
      ~ (leb (int 1500) altitude_m = true /\
         ltb altitude_m (int 3000) = true) ->
      _categorize_altitude altitude_m = high_altitude)) /\
  _categorize_altitude 499%float = sea_level /\
  _categorize_altitude 500%float = low_altitude /\
  _categorize_altitude 1499%float = low_altitude /\
  _categorize_altitude 3000%float = high_altitude.
Proof.
  split; [|repeat split; vm_compute; reflexivity].
  intros F A HA a. unfold _categorize_altitude. repeat split.
  - now intros ->.
  - intros H500 H1500. rewrite (leb_ltb_false _ _ H500), H1500. reflexivity.
  - intros H1500 H3000.
    assert (H500 : leb (int 500) a = true).
    { apply leb_trans_true with (int 1500); [|exact H1500].
      apply int_leb_mono; lia. }
    now rewrite (leb_ltb_false _ _ H500), (leb_ltb_false _ _ H1500), H3000.
  - intros H500 Hlow Hmid. rewrite H500.
    destruct (isnan a) eqn:Hnan.
    + now rewrite !(nan_ltb_l a _ Hnan).
    + assert (Hle : forall n, (0 <= n < 4096)%Z ->
                ltb a (int n) = false -> leb (int n) a = true).
      { intros n Hn. apply ltb_false_leb; [exact Hnan|].
        now apply int_not_nan. }
      assert (H500' : leb (int 500) a = true) by (apply Hle; [lia|exact H500]).
      destruct (ltb a (int 1500)) eqn:H1500; [tauto|].
      assert (H1500' : leb (int 1500) a = true) by (apply Hle; [lia|exact H1500]).
      destruct (ltb a (int 3000)) eqn:H3000; [tauto|reflexivity].
Qed.

(** ** The site optimiser *)

Section OptimizerFacts.
Context {F : Type} `{Arith F}.
Local Open Scope py_scope.
Variable quicksort : forall R : Type, (R -> F) -> list R -> list R.
Hypothesis quicksort_ok : sorts_ascending quicksort.

Lemma optimize_for_location_unfold (mof_df : list (mof_row F))
    (location_data : gmap string F) :
  optimize_for_location quicksort mof_df location_data =
  sort_values_descending quicksort performance_score
    (map (score_row (location_conditions location_data)) mof_df).
Proof. reflexivity. Qed.

(** The returned table holds the scored rows of the input, rearranged. *)
Lemma optimize_for_location_Permutation (mof_df : list (mof_row F))
    (location_data : gmap string F) :
  Permutation (optimize_for_location quicksort mof_df location_data)
    (map (score_row (location_conditions location_data)) mof_df).
Proof.
  rewrite optimize_for_location_unfold.
  now apply sort_values_descending_Permutation.
Qed.

(** A table of one row comes back as that row, scored. *)
Lemma optimize_for_location_single (r : mof_row F)
    (location_data : gmap string F) :
  optimize_for_location quicksort [r] location_data =
  [score_row (location_conditions location_data) r].
Proof.
  rewrite optimize_for_location_unfold. cbn [map].
  now apply sort_values_descending_single.
Qed.

Lemma optimize_for_location_rows (mof_df : list (mof_row F))
    (location_data : gmap string F) :
  let c := location_conditions location_data in
  Permutation
    (map material (optimize_for_location quicksort mof_df location_data))
    mof_df /\
  Forall (fun r =>
    let m := material r in
    performance_score r =
      lit 3 10 * (hydrophilicity m / humidity_avg c) +
      lit 25 100 *
        np_clip (thermal_stability_K m / temp_K c) (lit 8 10) (lit 12 10) +
      lit 25 100 * ((surface_area_m2g m / int 1000) * pore_volume_cm3g m) +
      lit 2 10 * (int 1 / (cost_per_kg m / int 50)) /\
    estimated_daily_yield r = max_water_uptake m * humidity_avg c * int 4)
    (optimize_for_location quicksort mof_df location_data).
Proof.
  intros c. split.
  - rewrite (optimize_for_location_Permutation mof_df location_data).
    rewrite map_map. cbn. now rewrite map_id.
  - apply List.Forall_forall. intros r Hr.
    apply (Permutation_in _ (optimize_for_location_Permutation _ _)) in Hr.
    apply in_map_iff in Hr as (m & <- & _). split; reflexivity.
Qed.

End OptimizerFacts.

(** C1: [optimize_for_location] returns every row of the table with
    [performance_score = 0.3 * humidity_factor + 0.25 * temp_factor +
    0.25 * capacity_factor + 0.2 * cost_factor], the factors being
    [hydrophilicity / humidity_avg], [clip(thermal_stability_K / temp_K,
    0.8, 1.2)], [(surface_area_m2g / 1000) * pore_volume_cm3g] and
    [1 / (cost_per_kg / 50)] at the conditions of the site's altitude band,
    and with [estimated_daily_yield = max_water_uptake * humidity_avg * 4].
    The scenario material at 1200 m scores 0.925: exactly in exact
    arithmetic, and within 1e-9 in binary64. *)
Theorem optimize_for_location_scores :
  (forall (F : Type) (A : Arith F)
      (quicksort : forall R : Type, (R -> F) -> list R -> list R),
    sorts_ascending quicksort ->
    forall (mof_df : list (mof_row F)) (location_data : gmap string F),
    let c := location_conditions location_data in
    Permutation
      (map material (optimize_for_location quicksort mof_df location_data))
      mof_df /\
    Forall (fun r =>
      let m := material r in
      performance_score r =
        (lit 3 10 * (hydrophilicity m / humidity_avg c) +
         lit 25 100 *
           np_clip (thermal_stability_K m / temp_K c) (lit 8 10) (lit 12 10) +
         lit 25 100 * ((surface_area_m2g m / int 1000) * pore_volume_cm3g m) +
         lit 2 10 * (int 1 / (cost_per_kg m / int 50)))%py /\
      estimated_daily_yield r =
        (max_water_uptake m * humidity_avg c * int 4)%py)
      (optimize_for_location quicksort mof_df location_data)) /\
  (forall quicksort : forall R : Type, (R -> Q) -> list R -> list R,
    sorts_ascending quicksort ->
    exists r,
      optimize_for_location quicksort [scenario_material] scenario_location
        = [r] /\
      material r = scenario_material /\
      (performance_score r == 925 # 1000)%Q) /\
  (forall quicksort : forall R : Type, (R -> float) -> list R -> list R,
    sorts_ascending quicksort ->
    exists r q,
      optimize_for_location quicksort [scenario_material] scenario_location
        = [r] /\
      material r = scenario_material /\
      float_to_Q (performance_score r) = Some q /\
      (Qabs (q - (925 # 1000)) <= 1 # 1000000000)%Q).
Proof.
  split; [|split].
  - intros F A quicksort Hsort mof_df location_data.
    now apply optimize_for_location_rows.
  - intros quicksort Hsort. eexists.
    rewrite optimize_for_location_single by assumption.
    split; [reflexivity|]. split; [reflexivity|].
    vm_compute. reflexivity.
  - intros quicksort Hsort. eexists. eexists.
    rewrite optimize_for_location_single by assumption.
    split; [reflexivity|]. split; [reflexivity|]. split.
    + vm_compute. reflexivity.
    + apply Qle_bool_iff. vm_compute. reflexivity.
Qed.

(** X20: for every sort that meets the NumPy contract, the table
    [optimize_for_location] returns is in descending order of
    [performance_score] (rows whose score is NaN last); rows with equal
    scores keep the order they have in the input when the sort in use keeps
    ties, which [sort_values] with its default [kind='quicksort'] does not
    promise. *)
Theorem optimize_for_location_ranking (F : Type) (A : Arith F)
    (O : ArithOrder F)
    (quicksort : forall R : Type, (R -> F) -> list R -> list R)
    (mof_df : list (mof_row F)) (location_data : gmap string F) :
  sorts_ascending quicksort ->
  Sorted (descending performance_score)
    (optimize_for_location quicksort mof_df location_data) /\
  (keeps_ties quicksort ->
   forall s : F,
     with_key performance_score s
       (optimize_for_location quicksort mof_df location_data) =
     with_key performance_score s
       (map (score_row (location_conditions location_data)) mof_df)).
Proof.
  intros Hsort. rewrite optimize_for_location_unfold. split.
  - now apply sort_values_descending_Sorted.
  - intros Hties s. now apply sort_values_descending_ties.
Qed.

Lemma optimize_for_location_ranking_witness :
  Sorted (descending performance_score)
    (optimize_for_location stable_sort
       [scenario_material; with_Fips 2 scenario_material]
       (scenario_location (F := float))) /\
  forall s : float,
    with_key performance_score s
      (optimize_for_location stable_sort
         [scenario_material; with_Fips 2 scenario_material]
         scenario_location) =
    with_key performance_score s
      (map (score_row (location_conditions scenario_location))
         [scenario_material; with_Fips 2 scenario_material]).
Proof.
  destruct (optimize_for_location_ranking float binary64 binary64_order
    stable_sort [scenario_material; with_Fips 2 scenario_material]
    scenario_location stable_sort_ok) as [Hsorted Hties].
  split; [exact Hsorted|]. exact (Hties stable_sort_keeps_ties).
Defined.

(** C5: the ranking does not keep equal scores in their input order.  On
    [tied_table] at the site of the scenario the nine odd rows score 0.925
    and the nine even rows 0.85, and [sort_values] with NumPy's quicksort
    returns the rows in descending order of the score but the rows of
    either score out of their input order: row 13 comes before row 3, and
    row 16 before row 2. *)
Theorem optimize_for_location_ties_reordered :
  let scores :=
    map performance_score
      (map (score_row (location_conditions scenario_location)) tied_table) in
  let out :=
    optimize_for_location numpy_quicksort tied_table
      (scenario_location (F := float)) in
  is_Some (aquicksort (rev scores)) /\
  map (fun r => Fips (material r)) out =
    [1; 13; 3; 17; 5; 7; 15; 9; 11; 16; 14; 10; 12; 2; 8; 6; 4; 18]%Z /\
  map performance_score out =
    repeat 0.92500000000000004%float 9 ++ repeat 0.85%float 9.
Proof.
  cbv zeta. split; [|split].
  - vm_compute. eexists. reflexivity.
  - vm_compute. reflexivity.
  - vm_compute. reflexivity.
Qed.

(** ** A zero cost in binary64 *)

Lemma float_eqb_zero (x : float) :
  PrimFloat.eqb x 0%float = true -> x = 0%float \/ x = (-0)%float.
Proof.
  rewrite FloatAxioms.eqb_spec. unfold SFeqb. intros Hx.
  rewrite <- (SF2Prim_Prim2SF x).
  change (Prim2SF 0%float) with (S754_zero false) in Hx.
  destruct (Prim2SF x) as [[|]|[|]| |[|] m e]; cbn in Hx; try discriminate.
  - right. reflexivity.
  - left. reflexivity.
Qed.

Lemma float_add_infinite (x y : float) :
  y = infinity \/ y = neg_infinity ->
  PrimFloat.add x y = y \/ PrimFloat.is_nan (PrimFloat.add x y) = true.
Proof.
  intros Hy.
  assert (Hsum : Prim2SF (PrimFloat.add x y) = Prim2SF y \/
                 Prim2SF (PrimFloat.add x y) = S754_nan).
  { rewrite FloatAxioms.add_spec. unfold SF64add, SFadd.
    destruct Hy as [-> | ->];
      [change (Prim2SF infinity) with (S754_infinity false)
      |change (Prim2SF neg_infinity) with (S754_infinity true)];
      destruct (Prim2SF x) as [[|]|[|]| |[|] m e]; auto. }
  destruct Hsum as [Hsum|Hsum].
  - left. now apply Prim2SF_inj.
  - right. now apply is_nan_spec.
Qed.

(** C6, as amended: when a material has [cost_per_kg = 0],
    [optimize_for_location] raises nothing: it returns the ranking with that
    material in it; the material's cost factor is an infinity ([+inf] for
    [0.0], [-inf] for [-0.0]) and its [performance_score] is that infinity
    or NaN. *)
Theorem optimize_for_location_zero_cost
    (quicksort : forall R : Type, (R -> float) -> list R -> list R)
    (mof_df : list (mof_row float)) (location_data : gmap string float)
    (m : mof_row float) :
  sorts_ascending quicksort ->
  In m mof_df ->
  PrimFloat.eqb (cost_per_kg m) 0%float = true ->
  let c := location_conditions location_data in
  In (score_row c m) (optimize_for_location quicksort mof_df location_data) /\
  (cost_factor m = infinity \/ cost_factor m = neg_infinity) /\
  (performance_score (score_row c m) = cost_factor m \/
   PrimFloat.is_nan (performance_score (score_row c m)) = true).
Proof.
  intros Hsort Hm Hcost c.
  assert (Hinf : cost_factor m = infinity \/ cost_factor m = neg_infinity).
  { unfold cost_factor.
    destruct (float_eqb_zero _ Hcost) as [-> | ->];
      [left|right]; reflexivity. }
  split; [|split].
  - apply (Permutation_in _
      (Permutation_sym
         (optimize_for_location_Permutation quicksort Hsort _ _))).
    now apply in_map.
  - exact Hinf.
  - cbn [score_row performance_score].
    assert (Hterm : (lit 2 10 * cost_factor m)%py = cost_factor m)
      by (destruct Hinf as [-> | ->]; reflexivity).
    rewrite Hterm. now apply float_add_infinite.
Qed.

Lemma optimize_for_location_zero_cost_witness :
  let m := with_cost_per_kg 0%float (with_Fips 2 scenario_material) in
  let c := location_conditions (scenario_location (F := float)) in
  In (score_row c m)
    (optimize_for_location stable_sort [scenario_material; m]
       scenario_location) /\
  (cost_factor m = infinity \/ cost_factor m = neg_infinity) /\
  (performance_score (score_row c m) = cost_factor m \/
   PrimFloat.is_nan (performance_score (score_row c m)) = true).
Proof.
  apply (optimize_for_location_zero_cost stable_sort
    [scenario_material; with_cost_per_kg 0%float (with_Fips 2 scenario_material)]
    scenario_location
    (with_cost_per_kg 0%float (with_Fips 2 scenario_material))).
  - exact stable_sort_ok.
  - right. left. reflexivity.
  - reflexivity.
Defined.

(** C6 as stated fails: with a material of cost 0 in the table nothing is
    raised, and the ranking that comes back has the infinite score in it,
    in first place. *)
Lemma optimize_for_location_infinite_score :
  map (fun r => (Fips (material r), performance_score r))
    (optimize_for_location stable_sort
       [scenario_material;
        with_cost_per_kg 0%float (with_Fips 2 scenario_material)]
       scenario_location)
  = [(2%Z, infinity); (1%Z, 0.92500000000000004%float)].
Proof. vm_compute. reflexivity. Qed.

(** ** The formulas in exact arithmetic *)

Section ExactFacts.
Local Open Scope Q_scope.

Lemma langmuir_point_eq (q k p : Q) :
  langmuir_point q k p = (q * k * p) / (1 + k * p).
Proof. reflexivity. Qed.

Lemma langmuir_denominator_pos (k p : Q) : 0 <= k -> 0 <= p -> 0 < 1 + k * p.
Proof. intros Hk Hp. nra. Qed.

Lemma langmuir_point_zero (q k : Q) : langmuir_point q k 0 == 0.
Proof. rewrite langmuir_point_eq. unfold Qdiv. ring. Qed.

Lemma langmuir_point_mono (q k p1 p2 : Q) :
  0 <= q -> 0 <= k -> 0 <= p1 -> p1 <= p2 ->
  langmuir_point q k p1 <= langmuir_point q k p2.
Proof.
  intros Hq Hk Hp1 Hp12. rewrite !langmuir_point_eq.
  assert (H1 : 0 < 1 + k * p1) by (apply langmuir_denominator_pos; lra).
  assert (H2 : 0 < 1 + k * p2) by (apply langmuir_denominator_pos; lra).
  apply Qle_shift_div_l; [exact H2|].
  assert (E : q * k * p1 / (1 + k * p1) * (1 + k * p2)
              == (q * k * p1 * (1 + k * p2)) / (1 + k * p1)) by (field; lra).
  rewrite E. apply Qle_shift_div_r; [exact H1|].
  assert (0 <= q * k) by nra.
  nra.
Qed.

Lemma langmuir_point_bounded (q k p : Q) :
  0 <= q -> 0 <= k -> 0 <= p -> langmuir_point q k p <= q.
Proof.
  intros Hq Hk Hp. rewrite langmuir_point_eq.
  apply Qle_shift_div_r; [now apply langmuir_denominator_pos|].
  assert (0 <= q * k) by nra. nra.
Qed.

Lemma langmuir_isotherm_Sorted (q k : Q) (P : list Q) :
  0 <= q -> 0 <= k -> Forall (Qle 0) P -> Sorted Qle P ->
  Sorted Qle (langmuir_isotherm P q k).
Proof.
  intros Hq Hk Hpos Hsorted. unfold langmuir_isotherm.
  induction Hsorted as [|p P HP IH Hhd]; cbn; constructor.
  - apply IH. now apply Forall_inv_tail in Hpos.
  - destruct Hhd as [|p' P Hpp']; cbn; constructor.
    apply langmuir_point_mono; try assumption.
    now apply Forall_inv in Hpos.
Qed.

(** C3, as amended: in exact arithmetic, for [q_max >= 0] and [K >= 0] the
    Langmuir uptake is 0 at [P = 0], non-decreasing in [P] over [P >= 0]
    and at most [q_max]; hence the uptake sequence of a simulation result
    is non-decreasing along a non-decreasing sequence of non-negative
    humidities.  (Binary64 follows the formula up to rounding only.) *)
Theorem langmuir_monotone_bounded (qMax k : Q) :
  0 <= qMax -> 0 <= k ->
  langmuir_point qMax k 0 == 0 /\
  (forall P1 P2, 0 <= P1 -> P1 <= P2 ->
     langmuir_point qMax k P1 <= langmuir_point qMax k P2) /\
  (forall P, 0 <= P -> langmuir_point qMax k P <= qMax) /\
  (forall (np_mean : list Q -> Q) (mof_properties : gmap string Q)
      (humidity_range : list Q) (temperature_K : Q),
     let result :=
       simulate_mof_performance np_mean mof_properties humidity_range
         temperature_K in
     0 <= q_max result -> 0 <= K result ->
     Forall (Qle 0) humidity_range -> Sorted Qle humidity_range ->
     Sorted Qle (water_uptake result)).
Proof.
  intros Hq Hk. split; [|split; [|split]].
  - apply langmuir_point_zero.
  - intros P1 P2 HP1 HP12. now apply langmuir_point_mono.
  - intros P HP. now apply langmuir_point_bounded.
  - intros np_mean mof_properties humidity_range temperature_K result.
    unfold result, simulate_mof_performance. cbn [q_max K water_uptake].
    intros Hq' Hk' Hpos Hsorted. now apply langmuir_isotherm_Sorted.
Qed.

Lemma humidity_avg_pos (c : altitude_category) :
  0 < humidity_avg (altitude_conditions (F := Q) c).
Proof. destruct c; reflexivity. Qed.

Lemma performance_score_hydrophilicity (c : conditions Q) (m : mof_row Q)
    (h1 h2 : Q) :
  0 < humidity_avg c -> h1 < h2 ->
  performance_score (score_row c (with_hydrophilicity h1 m)) <
  performance_score (score_row c (with_hydrophilicity h2 m)).
Proof.
  intros Hc Hh. cbn [score_row performance_score].
  unfold humidity_factor, temp_factor, capacity_factor, cost_factor.
  cbn [with_hydrophilicity hydrophilicity thermal_stability_K
       surface_area_m2g pore_volume_cm3g cost_per_kg].
  cbn [add mul div lit exact].
  generalize (np_clip (thermal_stability_K m / temp_K c) (8 # 10) (12 # 10)).
  generalize (surface_area_m2g m / int 1000 * pore_volume_cm3g m).
  generalize (int 1 / (cost_per_kg m / int 50)).
  intros kf cf t.
  assert (Hdiv : h1 / humidity_avg c < h2 / humidity_avg c).
  { unfold Qdiv. apply Qmult_lt_compat_r; [|exact Hh].
    now apply Qinv_lt_0_compat. }
  lra.
Qed.

(** C8, as amended: in exact arithmetic, at any site (every band has
    [humidity_avg > 0]) and for a material whose [cost_per_kg] is not zero,
    of two runs of [optimize_for_location] on materials that differ only in
    [hydrophilicity], the one with the larger value gets the strictly
    larger [performance_score]. *)
Theorem performance_score_increasing
    (quicksort : forall R : Type, (R -> Q) -> list R -> list R)
    (location_data : gmap string Q) (m : mof_row Q) (h1 h2 : Q) :
  sorts_ascending quicksort ->
  ~ cost_per_kg m == 0 ->
  h1 < h2 ->
  0 < humidity_avg (location_conditions location_data) /\
  exists r1 r2,
    optimize_for_location quicksort [with_hydrophilicity h1 m] location_data
      = [r1] /\
    optimize_for_location quicksort [with_hydrophilicity h2 m] location_data
      = [r2] /\
    performance_score r1 < performance_score r2.
Proof.
  intros Hsort _ Hh.
  assert (Hc : 0 < humidity_avg (location_conditions location_data))
    by apply humidity_avg_pos.
  split; [exact Hc|].
  exists (score_row (location_conditions location_data)
            (with_hydrophilicity h1 m)),
         (score_row (location_conditions location_data)
            (with_hydrophilicity h2 m)).
  rewrite !optimize_for_location_single by assumption.
  split; [reflexivity|]. split; [reflexivity|].
  now apply performance_score_hydrophilicity.
Qed.

End ExactFacts.

(** ** The theorems at concrete inputs *)

Lemma optimize_for_location_scores_witness :
  exists r q,
    optimize_for_location stable_sort [scenario_material] scenario_location
      = [r] /\
    material r = scenario_material /\
    float_to_Q (performance_score r) = Some q /\
    (Qabs (q - (925 # 1000)) <= 1 # 1000000000)%Q.
Proof.
  apply (proj2 (proj2 optimize_for_location_scores) stable_sort).
  exact stable_sort_ok.
Defined.

Lemma simulate_mof_performance_returns_witness :
  simulate_mof_performance (F := float) mean_fold scenario_properties
    scenario_humidity 298%float =
  {| humidity := scenario_humidity;
     water_uptake :=
       langmuir_isotherm scenario_humidity
         (0.3 * (1 + 0.3 * 0.5))%float (5 * 0.5 * (1000 / 1000))%float;
     daily_yield_L_kg_day :=
       (mean_fold (langmuir_isotherm scenario_humidity
          (0.3 * (1 + 0.3 * 0.5)) (5 * 0.5 * (1000 / 1000))) * 4)%float;
     q_max := (0.3 * (1 + 0.3 * 0.5))%float;
     K := (5 * 0.5 * (1000 / 1000))%float;
     model := "langmuir" |}.
Proof.
  rewrite (simulate_mof_performance_returns (F := float) mean_fold
    scenario_properties scenario_humidity 298%float
    1000%float 0.5%float 0.3%float) by (vm_compute; reflexivity).
  vm_compute. reflexivity.
Defined.

Lemma simulate_mof_performance_defaults_witness :
  let run m :=
    simulate_mof_performance (F := float) mean_fold m scenario_humidity
      298%float in
  run ∅ = run (<["surface_area_m2g" := 1000%float]> ∅) /\
  run ∅ = run (<["pore_volume_cm3g" := 0.5%float]> ∅) /\
  run ∅ = run (<["hydrophilicity" := 0.5%float]> ∅) /\
  run ∅ = run (<["max_water_uptake" := 0.3%float]> ∅).
Proof.
  destruct (simulate_mof_performance_defaults (F := float) mean_fold ∅
    scenario_humidity 298%float) as (Hsa & Hpv & Hh & Hmu).
  cbv zeta. split; [|split; [|split]];
    [apply Hsa|apply Hpv|apply Hh|apply Hmu]; reflexivity.
Defined.

Lemma isotherm_zero_exponent_witness :
  freundlich_isotherm power_integral [2%Q] 3%Q (py_float 0%Q)
    = Raise ZeroDivisionError /\
  toth_isotherm power_integral [2%Q] 3%Q 1%Q (py_float 0%Q)
    = Raise ZeroDivisionError /\
  freundlich_isotherm power_integral [2%Q] 3%Q (py_float 1%Q) =
    Ok [(3 * power_integral 2 (1 / 1))%Q].
Proof.
  destruct (isotherm_zero_exponent power_integral [2%Q] 3%Q 0%Q 3%Q 1%Q 0%Q)
    as (Hfreundlich & Htoth & _).
  destruct (isotherm_zero_exponent power_integral [2%Q] 3%Q 1%Q 3%Q 1%Q 0%Q)
    as (_ & _ & Hok & _).
  split; [|split].
  - apply Hfreundlich. reflexivity.
  - apply Htoth. reflexivity.
  - apply Hok. reflexivity.
Defined.

Lemma categorize_altitude_bands_witness :
  _categorize_altitude 1200%float = low_altitude /\
  _categorize_altitude 2000%float = mid_altitude /\
  _categorize_altitude nan = high_altitude.
Proof.
  split; [|split].
  - apply (proj1 categorize_altitude_bands float binary64 binary64_order
             1200%float); reflexivity.
  - apply (proj1 categorize_altitude_bands float binary64 binary64_order
             2000%float); reflexivity.
  - apply (proj1 categorize_altitude_bands float binary64 binary64_order nan);
      [reflexivity| |]; intros [Hle _]; discriminate Hle.
Defined.

Lemma langmuir_monotone_bounded_witness :
  (langmuir_point (345 # 1000) (25 # 10) 0 == 0)%Q /\
  (langmuir_point (345 # 1000) (25 # 10) (1 # 10) <=
   langmuir_point (345 # 1000) (25 # 10) (9 # 10))%Q /\
  (langmuir_point (345 # 1000) (25 # 10) (9 # 10) <= 345 # 1000)%Q /\
  Sorted Qle
    (water_uptake
       (simulate_mof_performance (F := Q) mean_fold scenario_properties
          scenario_humidity 298%Q)).
Proof.
  destruct (langmuir_monotone_bounded (345 # 1000) (25 # 10))
    as (Hzero & Hmono & Hbound & Hcurve);
    [unfold Qle; simpl; lia|unfold Qle; simpl; lia|].
  split; [exact Hzero|]. split; [|split].
  - apply Hmono; unfold Qle; simpl; lia.
  - apply Hbound; unfold Qle; simpl; lia.
  - apply Hcurve.
    + vm_compute. discriminate.
    + vm_compute. discriminate.
    + repeat constructor; unfold Qle; simpl; lia.
    + repeat constructor; unfold Qle; simpl; lia.
Defined.

Lemma performance_score_increasing_witness :
  (0 < humidity_avg (location_conditions (scenario_location (F := Q))))%Q /\
  exists r1 r2,
    optimize_for_location stable_sort
      [with_hydrophilicity (5 # 10) scenario_material] scenario_location
      = [r1] /\
    optimize_for_location stable_sort
      [with_hydrophilicity (7 # 10) scenario_material] scenario_location
      = [r2] /\
    (performance_score r1 < performance_score r2)%Q.
Proof.
  apply (performance_score_increasing stable_sort scenario_location
           scenario_material (5 # 10) (7 # 10)).
  - exact stable_sort_ok.
  - discriminate.
  - reflexivity.
Defined.

(** ** A zero exponent that is a NumPy scalar *)

(** C7 as stated fails: with the exponent [np.float64(0.0)] neither
    isotherm raises.  [1/n] is then [+inf], and whatever [np.power] makes
    of it, the call returns a list of values (humidity 2, [K_f = 3];
    humidity 2, [q_max = 3], [b = 1]). *)
Lemma isotherm_zero_exponent_no_error :
  (fun np_power : float -> float -> float =>
     freundlich_isotherm np_power [2%float] 3%float (np_float64 0%float)) =
  (fun np_power => Ok [(3 * np_power 2 infinity)%float]) /\
  (fun np_power : float -> float -> float =>
     toth_isotherm np_power [2%float] 3%float 1%float (np_float64 0%float)) =
  (fun np_power =>
     Ok [(6 / np_power (1 + np_power 2 0) infinity)%float]).
Proof.
  split; reflexivity.
Qed.

(** ** Where binary64 departs from the exact formulas *)

(** C3 as stated fails in binary64.  For the scenario material
    ([q_max = 0.345], [K = 2.5], both positive) and two adjacent humidities
    just above 0.5 the computed uptake decreases, by one unit in the last
    place; and at [P = 0] the uptake is NaN, not 0, when [q_max * K]
    overflows. *)
Lemma langmuir_binary64_not_monotone :
  let P1 := 0.50000000000000011%float in
  let P2 := 0.50000000000000022%float in
  let result :=
    simulate_mof_performance (F := float) mean_fold scenario_properties
      [P1; P2] 298%float in
  PrimFloat.leb 0 (q_max result) = true /\
  PrimFloat.leb 0 (K result) = true /\
  PrimFloat.ltb 0 P1 = true /\ PrimFloat.ltb P1 P2 = true /\
  water_uptake result =
    [0.19166666666666671%float; 0.19166666666666668%float] /\
  PrimFloat.ltb (langmuir_point (q_max result) (K result) P2)
    (langmuir_point (q_max result) (K result) P1) = true /\
  PrimFloat.is_nan (langmuir_point 1e200%float 1e200%float 0%float) = true.
Proof. vm_compute. repeat split. Qed.

(** C8 as stated fails in binary64.  Raising the hydrophilicity of the
    scenario material from 0.5 to the next binary64 number leaves its score
    at 0.925: the increase is below the rounding error of the sum.  And
    with [cost_per_kg = 0] the score is [+inf] whatever the
    hydrophilicity. *)
Lemma performance_score_binary64_not_strict :
  let score m :=
    map performance_score
      (optimize_for_location (F := float) stable_sort [m] scenario_location) in
  PrimFloat.ltb 0.5 0.50000000000000011 = true /\
  score (with_hydrophilicity 0.5%float scenario_material)
    = [0.92500000000000004%float] /\
  score (with_hydrophilicity 0.50000000000000011%float scenario_material)
    = [0.92500000000000004%float] /\
  score (with_hydrophilicity 0.5%float
           (with_cost_per_kg 0%float scenario_material)) = [infinity] /\
  score (with_hydrophilicity 0.9%float
           (with_cost_per_kg 0%float scenario_material)) = [infinity].
Proof. vm_compute. repeat split. Qed.

(** * Further properties of the code *)

(** ** The simulator, for every arithmetic *)

Section SimulatorExtras.
Context {F : Type} `{Arith F}.
Local Open Scope py_scope.

(** X1: [simulate_mof_performance] reads three entries of the mapping and
    nothing else: two mappings that agree on [surface_area_m2g],
    [hydrophilicity] and [max_water_uptake] give the same result, whatever
    [pore_volume_cm3g] (read, but not used), the other keys and the
    temperature are. *)
Theorem simulate_mof_performance_reads_three_keys (np_mean : list F -> F)
    (m m' : gmap string F) (humidity_range : list F) (T T' : F) :
  m !! "surface_area_m2g" = m' !! "surface_area_m2g" ->
  m !! "hydrophilicity" = m' !! "hydrophilicity" ->
  m !! "max_water_uptake" = m' !! "max_water_uptake" ->
  simulate_mof_performance np_mean m humidity_range T =
  simulate_mof_performance np_mean m' humidity_range T'.
Proof.
  intros Hsa Hh Hmu. unfold simulate_mof_performance, dict_get.
  now rewrite Hsa, Hh, Hmu.
Qed.

(** X2: with a Python float exponent, [freundlich_isotherm] raises exactly
    when [n] is zero and [toth_isotherm] exactly when [t] is zero; otherwise
    [toth_isotherm] returns [q_max * (b * P) / (1 + (b * P)^t)^(1/t)], and
    both return one value per humidity. *)
Theorem isotherm_raises_iff (np_power : F -> F -> F) (P : list F)
    (K_f n q_max b t : F) :
  ((exists e, freundlich_isotherm np_power P K_f (py_float n) = Raise e) <->
   (n =? int 0) = true) /\
  ((exists e, toth_isotherm np_power P q_max b (py_float t) = Raise e) <->
   (t =? int 0) = true) /\
  ((t =? int 0) = false ->
   toth_isotherm np_power P q_max b (py_float t) =
   Ok (map (fun p => q_max * (b * p) /
                     np_power (int 1 + np_power (b * p) t) (int 1 / t)) P)) /\
  (forall l, freundlich_isotherm np_power P K_f (py_float n) = Ok l ->
     length l = length P) /\
  (forall l, toth_isotherm np_power P q_max b (py_float t) = Ok l ->
     length l = length P).
Proof.
  unfold freundlich_isotherm, toth_isotherm, one_over, scalar_value, py_div.
  destruct (n =? int 0), (t =? int 0); cbn;
    (split; [|split; [|split; [|split]]]);
    try (split; [intros [e He]; congruence | intros; eauto; congruence]);
    try (intros; congruence);
    try (intros l [= <-]; apply length_map).
Qed.
End SimulatorExtras.

(** ** The simulator in exact arithmetic *)

Section ExactExtras.
Local Open Scope Q_scope.

Lemma langmuir_point_nonneg (q k p : Q) :
  0 <= q -> 0 <= k -> 0 <= p -> 0 <= langmuir_point q k p.
Proof.
  intros Hq Hk Hp. rewrite langmuir_point_eq.
  apply Qle_shift_div_l; [now apply langmuir_denominator_pos|].
  assert (0 <= q * k) by nra. nra.
Qed.

Lemma langmuir_point_below (q k p : Q) :
  0 < q -> 0 <= k -> 0 <= p -> langmuir_point q k p < q.
Proof.
  intros Hq Hk Hp. rewrite langmuir_point_eq.
  apply Qlt_shift_div_r; [now apply langmuir_denominator_pos|].
  assert (0 <= q * k) by nra. nra.
Qed.

Lemma langmuir_point_strict (q k p1 p2 : Q) :
  0 < q -> 0 < k -> 0 <= p1 -> p1 < p2 ->
  langmuir_point q k p1 < langmuir_point q k p2.
Proof.
  intros Hq Hk Hp1 Hp12. rewrite !langmuir_point_eq.
  assert (H1 : 0 < 1 + k * p1) by (apply langmuir_denominator_pos; lra).
  assert (H2 : 0 < 1 + k * p2) by (apply langmuir_denominator_pos; lra).
  apply Qlt_shift_div_l; [exact H2|].
  assert (E : q * k * p1 / (1 + k * p1) * (1 + k * p2)
              == (q * k * p1 * (1 + k * p2)) / (1 + k * p1)) by (field; lra).
  rewrite E. apply Qlt_shift_div_r; [exact H1|].
  assert (0 < q * k) by nra.
  nra.
Qed.

(** X3: in exact arithmetic, for [q_max > 0] and [K > 0] the Langmuir
    uptake at a humidity [P >= 0] is at least 0 and strictly below [q_max],
    it is strictly increasing in [P], and at [P = 1/K] it is half of
    [q_max]. *)
Theorem langmuir_uptake_range (qMax k : Q) :
  0 < qMax -> 0 < k ->
  (forall P, 0 <= P ->
     0 <= langmuir_point qMax k P /\ langmuir_point qMax k P < qMax) /\
  (forall P1 P2, 0 <= P1 -> P1 < P2 ->
     langmuir_point qMax k P1 < langmuir_point qMax k P2) /\
  langmuir_point qMax k (1 / k) == qMax / 2.
Proof.
  intros Hq Hk. split; [|split].
  - intros P HP. split.
    + apply langmuir_point_nonneg; lra.
    + apply langmuir_point_below; lra.
  - intros P1 P2 HP1 HP12. now apply langmuir_point_strict.
  - rewrite langmuir_point_eq. field. lra.
Qed.

Lemma mean_fold_eq (l : list Q) :
  mean_fold l = fold_left Qplus l 0 / inject_Z (Z.of_nat (length l)).
Proof. reflexivity. Qed.

Lemma fold_left_Qplus_bounds (lo hi : Q) (l : list Q) (acc : Q) :
  Forall (fun x => lo <= x <= hi) l ->
  acc + inject_Z (Z.of_nat (length l)) * lo <= fold_left Qplus l acc /\
  fold_left Qplus l acc <= acc + inject_Z (Z.of_nat (length l)) * hi.
Proof.
  intros Hl. revert acc. induction Hl as [|x l [Hlo Hhi] Hl IH]; intros acc.
  - cbn [fold_left length]. change (inject_Z (Z.of_nat 0)) with 0. lra.
  - cbn [fold_left length]. destruct (IH (acc + x)) as [IHlo IHhi].
    rewrite Nat2Z.inj_succ, <- Z.add_1_r, inject_Z_plus.
    change (inject_Z 1) with 1. lra.
Qed.

Lemma mean_fold_bounds (lo hi : Q) (l : list Q) :
  l <> [] -> Forall (fun x => lo <= x <= hi) l ->
  lo <= mean_fold l <= hi.
Proof.
  intros Hne Hl. rewrite mean_fold_eq.
  assert (Hlen : 0 < inject_Z (Z.of_nat (length l))).
  { destruct l; [congruence|]. cbn [length].
    change 0 with (inject_Z 0). rewrite <- Zlt_Qlt. lia. }
  destruct (fold_left_Qplus_bounds lo hi l 0 Hl) as [Hlo Hhi]. split.
  - apply Qle_shift_div_l; [exact Hlen|]. lra.
  - apply Qle_shift_div_r; [exact Hlen|]. lra.
Qed.

(** X4: in exact arithmetic, on a non-empty sequence of non-negative
    humidities and with derived parameters [q_max >= 0] and [K >= 0], every
    uptake value of the result lies between 0 and [q_max], and the daily
    yield between 0 and [4 * q_max]. *)
Theorem simulate_daily_yield_bounds (mof_properties : gmap string Q)
    (humidity_range : list Q) (temperature_K : Q) :
  let result :=
    simulate_mof_performance mean_fold mof_properties humidity_range
      temperature_K in
  humidity_range <> [] ->
  Forall (Qle 0) humidity_range ->
  0 <= q_max result -> 0 <= K result ->
  Forall (fun u => 0 <= u <= q_max result) (water_uptake result) /\
  0 <= daily_yield_L_kg_day result <= 4 * q_max result.
Proof.
  intros result Hne Hpos Hq Hk.
  assert (Hu : Forall (fun u => 0 <= u <= q_max result) (water_uptake result)).
  { unfold result, simulate_mof_performance in *.
    cbn [q_max K water_uptake] in *. unfold langmuir_isotherm.
    apply List.Forall_map. eapply List.Forall_impl; [|exact Hpos].
    intros p Hp. split.
    - now apply langmuir_point_nonneg.
    - now apply langmuir_point_bounded. }
  split; [exact Hu|].
  assert (Hm : 0 <= mean_fold (water_uptake result) <= q_max result).
  { apply mean_fold_bounds; [|exact Hu].
    unfold result, simulate_mof_performance. cbn [water_uptake].
    unfold langmuir_isotherm. destruct humidity_range; [congruence|discriminate]. }
  change (daily_yield_L_kg_day result)
    with (mean_fold (water_uptake result) * 4).
  revert Hm. generalize (mean_fold (water_uptake result)) (q_max result).
  intros a q Ha. lra.
Qed.

Lemma langmuir_point_K0 (q k p : Q) : k == 0 -> langmuir_point q k p == 0.
Proof.
  intros Hk. rewrite langmuir_point_eq. rewrite Hk. unfold Qdiv. ring.
Qed.

Lemma fold_left_Qplus_zero (l : list Q) (acc : Q) :
  Forall (fun u => u == 0) l -> fold_left Qplus l acc == acc.
Proof.
  intros Hl. revert acc. induction Hl as [|x l Hx Hl IH]; intros acc; cbn.
  - reflexivity.
  - rewrite IH, Hx. ring.
Qed.

(** X5: in exact arithmetic, for a material whose [hydrophilicity] is 0 the
    derived [K] is 0, every uptake value is 0, and (on a non-empty humidity
    sequence) so is the daily yield. *)
Theorem simulate_zero_hydrophilicity (mof_properties : gmap string Q)
    (humidity_range : list Q) (temperature_K h : Q) :
  let result :=
    simulate_mof_performance mean_fold mof_properties humidity_range
      temperature_K in
  mof_properties !! "hydrophilicity" = Some h -> h == 0 ->
  K result == 0 /\
  Forall (fun u => u == 0) (water_uptake result) /\
  (humidity_range <> [] -> daily_yield_L_kg_day result == 0).
Proof.
  intros result Hh Hz.
  assert (HK : K result == 0).
  { unfold result, simulate_mof_performance, dict_get. rewrite Hh.
    cbn [K]. cbn [mul div lit int exact]. rewrite Hz. unfold Qdiv. ring. }
  assert (Hu : Forall (fun u => u == 0) (water_uptake result)).
  { unfold result, simulate_mof_performance in *. cbn [K water_uptake] in *.
    unfold langmuir_isotherm. apply List.Forall_map, List.Forall_forall.
    intros p _. now apply langmuir_point_K0. }
  split; [exact HK|]. split; [exact Hu|]. intros _.
  unfold result, simulate_mof_performance in *.
  cbn [water_uptake daily_yield_L_kg_day] in *.
  rewrite mean_fold_eq. cbn [mul exact].
  rewrite (fold_left_Qplus_zero _ 0 Hu). unfold Qdiv. ring.
Qed.
End ExactExtras.

(** ** The ranking *)

Section RankingExtras.
Context {F : Type} `{ArithOrder F}.
Local Open Scope py_scope.
Hypothesis nan_leb_r : forall x y : F, isnan y = true -> (x <=? y) = false.

Lemma leb_refl_true (x : F) : isnan x = false -> (x <=? x) = true.
Proof.
  intros Hx. destruct (x <=? x) eqn:E; [reflexivity|].
  rewrite <- E. now apply leb_total.
Qed.

Lemma descending_trans {R : Type} (key : R -> F) (a b c : R) :
  descending key a b -> descending key b c -> descending key a c.
Proof.
  intros Hab [Hbc|Hc]; [|now right].
  destruct Hab as [Hab|Hb].
  - left. now apply leb_trans_true with (key b).
  - rewrite (nan_leb_r _ _ Hb) in Hbc. discriminate.
Qed.

Lemma Sorted_descending_head {R : Type} (key : R -> F) (r0 : R)
    (rest : list R) :
  Sorted (descending key) (r0 :: rest) -> Forall (descending key r0) rest.
Proof.
  intros Hs. apply Sorted_StronglySorted in Hs.
  - now apply StronglySorted_inv in Hs.
  - intros a b c. apply descending_trans.
Qed.

Lemma Sorted_descending_nan_tail {R : Type} (key : R -> F)
    (pre post : list R) (r : R) :
  Sorted (descending key) (pre ++ r :: post) -> isnan (key r) = true ->
  Forall (fun x => isnan (key x) = true) post.
Proof.
  intros Hs Hr. induction pre as [|a pre IH].
  - cbn in Hs. apply Sorted_descending_head in Hs.
    eapply List.Forall_impl; [|exact Hs].
    intros x [Hx|Hx]; [|exact Hx].
    rewrite (nan_leb_r _ _ Hr) in Hx. discriminate.
  - apply IH. cbn in Hs. now apply Sorted_inv in Hs.
Qed.

Variable quicksort : forall R : Type, (R -> F) -> list R -> list R.
Hypothesis quicksort_ok : sorts_ascending quicksort.

Lemma optimize_for_location_head (mof_df : list (mof_row F))
    (location_data : gmap string F) (r0 : ranked_row F)
    (rest : list (ranked_row F)) (m : mof_row F) :
  optimize_for_location quicksort mof_df location_data = r0 :: rest ->
  In m mof_df ->
  descending performance_score r0
    (score_row (location_conditions location_data) m).
Proof.
  intros Hout Hm.
  assert (Hin : In (score_row (location_conditions location_data) m)
                  (r0 :: rest)).
  { rewrite <- Hout.
    apply (Permutation_in _ (Permutation_sym
      (optimize_for_location_Permutation quicksort quicksort_ok _ _))).
    now apply in_map. }
  assert (Hs : Sorted (descending performance_score) (r0 :: rest)).
  { rewrite <- Hout, optimize_for_location_unfold.
    now apply sort_values_descending_Sorted. }
  destruct Hin as [<- | Hin].
  - destruct (isnan (performance_score r0)) eqn:E; [now right|].
    left. now apply leb_refl_true.
  - apply Sorted_descending_head in Hs. rewrite List.Forall_forall in Hs.
    now apply Hs.
Qed.

Lemma optimize_for_location_nan_tail (mof_df : list (mof_row F))
    (location_data : gmap string F) (pre post : list (ranked_row F))
    (r : ranked_row F) :
  optimize_for_location quicksort mof_df location_data = pre ++ r :: post ->
  isnan (performance_score r) = true ->
  Forall (fun x => isnan (performance_score x) = true) post.
Proof.
  intros Hout Hr. apply (Sorted_descending_nan_tail _ pre post r); [|exact Hr].
  rewrite <- Hout, optimize_for_location_unfold.
  now apply sort_values_descending_Sorted.
Qed.

End RankingExtras.

Lemma float_nan_leb_r (x y : float) :
  PrimFloat.is_nan y = true -> PrimFloat.leb x y = false.
Proof.
  intros Hy. apply is_nan_spec in Hy.
  rewrite FloatAxioms.leb_spec. unfold SFleb. rewrite Hy.
  destruct (Prim2SF x); reflexivity.
Qed.

(** X6: the first row of the ranking has the greatest score: every row of
    the table scores at most as much as the first row returned, or has a
    NaN score.  (The arithmetic is one in which nothing is below or equal
    to NaN, as in binary64.) *)
Theorem optimize_for_location_top (F : Type) (A : Arith F) (O : ArithOrder F)
    (quicksort : forall R : Type, (R -> F) -> list R -> list R)
    (mof_df : list (mof_row F)) (location_data : gmap string F)
    (r0 : ranked_row F) (rest : list (ranked_row F)) (m : mof_row F) :
  (forall x y : F, isnan y = true -> leb x y = false) ->
  sorts_ascending quicksort ->
  optimize_for_location quicksort mof_df location_data = r0 :: rest ->
  In m mof_df ->
  let s := performance_score (score_row (location_conditions location_data) m) in
  leb s (performance_score r0) = true \/ isnan s = true.
Proof.
  intros Hnan Hsort Hout Hm. 
  exact (optimize_for_location_head Hnan quicksort Hsort _ _ _ _ _ Hout Hm).
Qed.

(** ** NaN in binary64 *)

Lemma float_nan_add (x y : float) :
  PrimFloat.is_nan x = true \/ PrimFloat.is_nan y = true ->
  PrimFloat.is_nan (PrimFloat.add x y) = true.
Proof.
  rewrite !is_nan_spec, FloatAxioms.add_spec. unfold SF64add, SFadd.
  intros [-> | ->]; [reflexivity|]. destruct (Prim2SF x); reflexivity.
Qed.

Lemma float_nan_mul (x y : float) :
  PrimFloat.is_nan x = true \/ PrimFloat.is_nan y = true ->
  PrimFloat.is_nan (PrimFloat.mul x y) = true.
Proof.
  rewrite !is_nan_spec, FloatAxioms.mul_spec. unfold SF64mul, SFmul.
  intros [-> | ->]; [reflexivity|]. destruct (Prim2SF x); reflexivity.
Qed.

Lemma float_nan_div (x y : float) :
  PrimFloat.is_nan x = true \/ PrimFloat.is_nan y = true ->
  PrimFloat.is_nan (PrimFloat.div x y) = true.
Proof.
  rewrite !is_nan_spec, FloatAxioms.div_spec. unfold SF64div, SFdiv.
  intros [-> | ->]; [reflexivity|]. destruct (Prim2SF x); reflexivity.
Qed.

Lemma float_nan_clip (x lo hi : float) :
  PrimFloat.is_nan x = true -> PrimFloat.is_nan (np_clip x lo hi) = true.
Proof. intros Hx. unfold np_clip. cbn [isnan binary64]. now rewrite Hx. Qed.

Lemma score_row_nan (c : conditions float) (m : mof_row float) :
  PrimFloat.is_nan (hydrophilicity m) = true \/
  PrimFloat.is_nan (thermal_stability_K m) = true \/
  PrimFloat.is_nan (surface_area_m2g m) = true \/
  PrimFloat.is_nan (pore_volume_cm3g m) = true \/
  PrimFloat.is_nan (cost_per_kg m) = true ->
  PrimFloat.is_nan (performance_score (score_row c m)) = true.
Proof.
  intros Hnan. cbn [score_row performance_score].
  unfold humidity_factor, temp_factor, capacity_factor, cost_factor.
  cbn [add mul div binary64].
  destruct Hnan as [Hn|[Hn|[Hn|[Hn|Hn]]]].
  - apply float_nan_add; left. apply float_nan_add; left.
    apply float_nan_add; left. apply float_nan_mul; right.
    apply float_nan_div; now left.
  - apply float_nan_add; left. apply float_nan_add; left.
    apply float_nan_add; right. apply float_nan_mul; right.
    apply float_nan_clip, float_nan_div; now left.
  - apply float_nan_add; left. apply float_nan_add; right.
    apply float_nan_mul; right. apply float_nan_mul; left.
    apply float_nan_div; now left.
  - apply float_nan_add; left. apply float_nan_add; right.
    apply float_nan_mul; right. apply float_nan_mul; now right.
  - apply float_nan_add; right. apply float_nan_mul; right.
    apply float_nan_div; right. apply float_nan_div; now left.
Qed.

(** X7: in binary64, a material with NaN in [hydrophilicity],
    [thermal_stability_K], [surface_area_m2g], [pore_volume_cm3g] or
    [cost_per_kg] (an empty cell of the table) gets a NaN score, stays in the
    ranking, and every row ranked after it has a NaN score as well. *)
Theorem optimize_for_location_nan_last
    (quicksort : forall R : Type, (R -> float) -> list R -> list R)
    (mof_df : list (mof_row float)) (location_data : gmap string float)
    (m : mof_row float) :
  sorts_ascending quicksort ->
  In m mof_df ->
  PrimFloat.is_nan (hydrophilicity m) = true \/
  PrimFloat.is_nan (thermal_stability_K m) = true \/
  PrimFloat.is_nan (surface_area_m2g m) = true \/
  PrimFloat.is_nan (pore_volume_cm3g m) = true \/
  PrimFloat.is_nan (cost_per_kg m) = true ->
  let r := score_row (location_conditions location_data) m in
  PrimFloat.is_nan (performance_score r) = true /\
  In r (optimize_for_location quicksort mof_df location_data) /\
  forall pre post,
    optimize_for_location quicksort mof_df location_data = pre ++ r :: post ->
    Forall (fun x => PrimFloat.is_nan (performance_score x) = true) post.
Proof.
  intros Hsort Hm Hnan r.
  assert (Hr : PrimFloat.is_nan (performance_score r) = true)
    by now apply score_row_nan.
  split; [exact Hr|]. split.
  - apply (Permutation_in _ (Permutation_sym
      (optimize_for_location_Permutation quicksort Hsort _ _))).
    now apply in_map.
  - intros pre post Hout.
    exact (optimize_for_location_nan_tail float_nan_leb_r quicksort Hsort
             _ _ _ _ _ Hout Hr).
Qed.

(** ** The clipped thermal factor *)

Section ClipFacts.
Context {F : Type} `{ArithOrder F}.
Local Open Scope py_scope.

Lemma np_clip_range (x lo hi : F) :
  isnan lo = false -> isnan hi = false -> (lo <=? hi) = true ->
  isnan x = false ->
  (lo <=? np_clip x lo hi) = true /\ (np_clip x lo hi <=? hi) = true.
Proof.
  intros Hlo Hhi Hlh Hx. unfold np_clip. rewrite Hx.
  destruct (x <? lo) eqn:E1.
  - split; [now apply leb_refl_true|exact Hlh].
  - destruct (hi <? x) eqn:E2.
    + split; [exact Hlh|now apply leb_refl_true].
    + split; now apply ltb_false_leb.
Qed.
End ClipFacts.

(** X8: the thermal factor is clipped: in binary64 it is NaN or lies
    between 0.8 and 1.2, and in exact arithmetic it always lies between 0.8
    and 1.2, whatever the material and the conditions. *)
Theorem temp_factor_range :
  (forall (c : conditions float) (m : mof_row float),
     let t := temp_factor c m in
     PrimFloat.is_nan t = true \/
     (PrimFloat.leb 0.8 t = true /\ PrimFloat.leb t 1.2 = true)) /\
  (forall (c : conditions Q) (m : mof_row Q),
     (8 # 10 <= temp_factor c m <= 12 # 10)%Q).
Proof.
  split.
  - intros c m t. unfold t, temp_factor.
    destruct (PrimFloat.is_nan (thermal_stability_K m / temp_K c)%py) eqn:E.
    + left. unfold np_clip. cbn [isnan binary64]. now rewrite E.
    + right.
      exact (np_clip_range (F := float) _ (lit 8 10) (lit 12 10)
               eq_refl eq_refl eq_refl E).
  - intros c m. unfold temp_factor.
    destruct (np_clip_range (F := Q)
      (thermal_stability_K m / temp_K c)%py (lit 8 10) (lit 12 10))
      as [Hlo Hhi]; try reflexivity.
    cbn [leb exact] in Hlo, Hhi. apply Qle_bool_iff in Hlo, Hhi. 
    split; assumption.
Qed.

(** ** The site *)

(** X9: of the site, [optimize_for_location] uses the altitude band and
    nothing else: two sites in the same band, and in particular two sites
    with the same [altitude_m] whatever their [humidity] and [temp_K], give
    the same table; a site without [altitude_m] counts as altitude 0, which
    is [sea_level]. *)
Theorem optimize_for_location_site :
  (forall (F : Type) (A : Arith F)
      (quicksort : forall R : Type, (R -> F) -> list R -> list R)
      (mof_df : list (mof_row F)) (site site' : gmap string F),
     (_categorize_altitude (dict_get site "altitude_m" (int 0)) =
      _categorize_altitude (dict_get site' "altitude_m" (int 0)) ->
      optimize_for_location quicksort mof_df site =
      optimize_for_location quicksort mof_df site') /\
     (site !! "altitude_m" = site' !! "altitude_m" ->
      optimize_for_location quicksort mof_df site =
      optimize_for_location quicksort mof_df site') /\
     (site !! "altitude_m" = None ->
      optimize_for_location quicksort mof_df site =
      optimize_for_location quicksort mof_df {[ "altitude_m" := int 0 ]})) /\
  _categorize_altitude (int 0 : float) = sea_level /\
  _categorize_altitude (int 0 : Q) = sea_level.
Proof.
  split; [|split; reflexivity].
  intros F A quicksort mof_df site site'.
  unfold optimize_for_location. split; [|split].
  - now intros ->.
  - intros Hsame. unfold dict_get. now rewrite Hsame.
  - intros Hnone. unfold dict_get. rewrite Hnone.
    now rewrite lookup_singleton_eq.
Qed.

(** ** The score in exact arithmetic *)

Section ExactScore.
Local Open Scope Q_scope.

(** The score in exact arithmetic, as a sum of its four terms. *)
Lemma performance_score_eq (c : conditions Q) (m : mof_row Q) :
  performance_score (score_row c m) =
  (3 # 10) * (hydrophilicity m / humidity_avg c) +
  (25 # 100) * np_clip (thermal_stability_K m / temp_K c) (8 # 10) (12 # 10) +
  (25 # 100) * (surface_area_m2g m / 1000 * pore_volume_cm3g m) +
  (2 # 10) * (1 / (cost_per_kg m / 50)).
Proof. reflexivity. Qed.

Lemma np_clip_exact (x lo hi : Q) :
  np_clip x lo hi =
  if Qltb x lo then lo else if Qltb hi x then hi else x.
Proof. reflexivity. Qed.

Lemma np_clip_mono (x y lo hi : Q) :
  lo <= hi -> x <= y -> np_clip x lo hi <= np_clip y lo hi.
Proof.
  intros Hlh Hxy. rewrite !np_clip_exact.
  destruct (Qltb x lo) eqn:E1, (Qltb y lo) eqn:E2,
           (Qltb hi x) eqn:E3, (Qltb hi y) eqn:E4;
    rewrite ?Qltb_lt, ?Qltb_ge in *; lra.
Qed.

Lemma np_clip_above (x lo hi : Q) :
  lo <= hi -> hi <= x -> np_clip x lo hi == hi.
Proof.
  intros Hlh Hx. rewrite np_clip_exact.
  destruct (Qltb x lo) eqn:E1, (Qltb hi x) eqn:E3;
    rewrite ?Qltb_lt, ?Qltb_ge in *; lra.
Qed.

Lemma band_temp_K_pos (cat : altitude_category) :
  0 < temp_K (altitude_conditions (F := Q) cat).
Proof. destruct cat; reflexivity. Qed.

Lemma Qdiv_le_compat_r (x y d : Q) : 0 < d -> x <= y -> x / d <= y / d.
Proof.
  intros Hd Hxy. unfold Qdiv. apply Qmult_le_compat_r; [exact Hxy|].
  apply Qlt_le_weak. now apply Qinv_lt_0_compat.
Qed.

Lemma cost_factor_decreasing (c1 c2 : Q) :
  0 < c1 -> c1 < c2 -> 1 / (c2 / 50) < 1 / (c1 / 50).
Proof.
  intros H1 H12.
  assert (E1 : 1 / (c1 / 50) == 50 / c1) by (field; lra).
  assert (E2 : 1 / (c2 / 50) == 50 / c2) by (field; lra).
  rewrite E1, E2.
  apply Qlt_shift_div_l; [lra|].
  assert (E : 50 / c2 * c1 == 50 * c1 / c2) by (field; lra).
  rewrite E. apply Qlt_shift_div_r; lra.
Qed.


Lemma score_row_thermal_mono (c : conditions Q) (m : mof_row Q) (t1 t2 : Q) :
  0 < temp_K c -> t1 <= t2 ->
  performance_score (score_row c (with_thermal_stability_K t1 m)) <=
  performance_score (score_row c (with_thermal_stability_K t2 m)).
Proof.
  intros Hc Ht. rewrite !performance_score_eq.
  cbn [with_thermal_stability_K hydrophilicity thermal_stability_K
       surface_area_m2g pore_volume_cm3g cost_per_kg].
  assert (Hclip : np_clip (t1 / temp_K c) (8 # 10) (12 # 10)
                  <= np_clip (t2 / temp_K c) (8 # 10) (12 # 10)).
  { apply np_clip_mono; [lra|]. now apply Qdiv_le_compat_r. }
  revert Hclip.
  generalize (np_clip (t1 / temp_K c) (8 # 10) (12 # 10)).
  generalize (np_clip (t2 / temp_K c) (8 # 10) (12 # 10)).
  generalize (hydrophilicity m / humidity_avg c).
  generalize (surface_area_m2g m / 1000 * pore_volume_cm3g m).
  generalize (1 / (cost_per_kg m / 50)).
  intros. lra.
Qed.

Lemma score_row_thermal_capped (c : conditions Q) (m : mof_row Q) (t1 t2 : Q) :
  0 < temp_K c -> (12 # 10) * temp_K c <= t1 -> (12 # 10) * temp_K c <= t2 ->
  performance_score (score_row c (with_thermal_stability_K t1 m)) ==
  performance_score (score_row c (with_thermal_stability_K t2 m)).
Proof.
  intros Hc Ht1 Ht2. rewrite !performance_score_eq.
  cbn [with_thermal_stability_K hydrophilicity thermal_stability_K
       surface_area_m2g pore_volume_cm3g cost_per_kg].
  assert (Hdiv : forall t, (12 # 10) * temp_K c <= t -> 12 # 10 <= t / temp_K c).
  { intros t Ht. apply Qle_shift_div_l; assumption. }
  rewrite (np_clip_above (t1 / temp_K c)), (np_clip_above (t2 / temp_K c));
    try lra; try now apply Hdiv.
Qed.

Lemma score_row_cost_decreasing (c : conditions Q) (m : mof_row Q) (c1 c2 : Q) :
  0 < c1 -> c1 < c2 ->
  performance_score (score_row c (with_cost_per_kg c2 m)) <
  performance_score (score_row c (with_cost_per_kg c1 m)).
Proof.
  intros H1 H12. rewrite !performance_score_eq.
  cbn [with_cost_per_kg hydrophilicity thermal_stability_K
       surface_area_m2g pore_volume_cm3g cost_per_kg].
  pose proof (cost_factor_decreasing c1 c2 H1 H12) as Hcost. revert Hcost.
  generalize (1 / (c1 / 50)) (1 / (c2 / 50)).
  generalize (np_clip (thermal_stability_K m / temp_K c) (8 # 10) (12 # 10)).
  generalize (hydrophilicity m / humidity_avg c).
  generalize (surface_area_m2g m / 1000 * pore_volume_cm3g m).
  intros. lra.
Qed.

Lemma score_row_surface_increasing (c : conditions Q) (m : mof_row Q) (a1 a2 : Q) :
  0 < pore_volume_cm3g m -> a1 < a2 ->
  performance_score (score_row c (with_surface_area_m2g a1 m)) <
  performance_score (score_row c (with_surface_area_m2g a2 m)).
Proof.
  intros Hpv Ha. rewrite !performance_score_eq.
  cbn [with_surface_area_m2g hydrophilicity thermal_stability_K
       surface_area_m2g pore_volume_cm3g cost_per_kg].
  assert (Hcap : a1 / 1000 * pore_volume_cm3g m < a2 / 1000 * pore_volume_cm3g m).
  { apply Qmult_lt_compat_r; [exact Hpv|].
    unfold Qdiv. apply Qmult_lt_compat_r; [reflexivity|exact Ha]. }
  revert Hcap.
  generalize (a1 / 1000 * pore_volume_cm3g m) (a2 / 1000 * pore_volume_cm3g m).
  generalize (np_clip (thermal_stability_K m / temp_K c) (8 # 10) (12 # 10)).
  generalize (hydrophilicity m / humidity_avg c).
  generalize (1 / (cost_per_kg m / 50)).
  intros. lra.
Qed.

Lemma humidity_avg_by_altitude (a1 a2 : Q) :
  a1 <= a2 ->
  humidity_avg (altitude_conditions (_categorize_altitude a2)) <=
  humidity_avg (altitude_conditions (_categorize_altitude a1)).
Proof.
  intros Ha. unfold _categorize_altitude. cbn [ltb exact int lit].
  destruct (Qltb a1 (500 # 1)) eqn:E1, (Qltb a1 (1500 # 1)) eqn:E2,
           (Qltb a1 (3000 # 1)) eqn:E3, (Qltb a2 (500 # 1)) eqn:E4,
           (Qltb a2 (1500 # 1)) eqn:E5, (Qltb a2 (3000 # 1)) eqn:E6;
    rewrite ?Qltb_lt, ?Qltb_ge in *; cbn; lra.
Qed.

Lemma Sorted_Permutation_eq {A B : Type} (R : A -> A -> Prop) (k : A -> B) :
  (forall a b c, R a b -> R b c -> R a c) ->
  (forall a b, R a b -> R b a -> k a = k b) ->
  forall l1 l2 : list A,
    Permutation l1 l2 -> List.NoDup (map k l1) ->
    Sorted R l1 -> Sorted R l2 -> l1 = l2.
Proof.
  intros Htrans Hanti. induction l1 as [|a l1 IH]; intros l2 Hp Hnd Hs1 Hs2.
  - apply Permutation_nil in Hp. now subst.
  - destruct l2 as [|b l2].
    { symmetry in Hp. now apply Permutation_nil_cons in Hp. }
    assert (Hab : a = b).
    { assert (Hb : In b (a :: l1))
        by (apply (Permutation_in _ (Permutation_sym Hp)); now left).
      assert (Ha : In a (b :: l2))
        by (apply (Permutation_in _ Hp); now left).
      destruct Hb as [Hb|Hb]; [exact Hb|].
      destruct Ha as [Ha|Ha]; [now symmetry|].
      apply Sorted_StronglySorted in Hs1, Hs2; try exact Htrans.
      apply StronglySorted_inv in Hs1 as [_ Hs1].
      apply StronglySorted_inv in Hs2 as [_ Hs2].
      rewrite List.Forall_forall in Hs1, Hs2.
      cbn in Hnd. apply NoDup_cons_iff in Hnd as [Hnd _].
      exfalso. apply Hnd. rewrite (Hanti a b (Hs1 _ Hb) (Hs2 _ Ha)).
      now apply in_map. }
    subst b. f_equal. apply IH.
    + now apply Permutation_cons_inv in Hp.
    + cbn in Hnd. now apply NoDup_cons_iff in Hnd.
    + now apply Sorted_inv in Hs1.
    + now apply Sorted_inv in Hs2.
Qed.

Lemma descending_exact_trans {R : Type} (key : R -> Q) (a b c : R) :
  descending key a b -> descending key b c -> descending key a c.
Proof.
  intros [Hab|Hab] [Hbc|Hbc]; try discriminate. left.
  cbn [leb exact] in *. apply Qle_bool_iff in Hab, Hbc. apply Qle_bool_iff.
  now apply Qle_trans with (key b).
Qed.

Lemma descending_exact_antisym {R : Type} (key : R -> Q) (a b : R) :
  descending key a b -> descending key b a -> Qred (key a) = Qred (key b).
Proof.
  intros [Hab|Hab] [Hba|Hba]; try discriminate.
  cbn [leb exact] in *. apply Qle_bool_iff in Hab, Hba.
  apply Qred_complete. now apply Qle_antisym.
Qed.

(** X10: in exact arithmetic, when no [cost_per_kg] of the table is zero
    and the scores of the table are pairwise different, the ranking is
    determined: it is the same for every sort that meets the NumPy contract
    and for every order of the rows of the input table. *)
Theorem optimize_for_location_without_ties
    (quicksort quicksort' : forall R : Type, (R -> Q) -> list R -> list R)
    (mof_df mof_df' : list (mof_row Q)) (location_data : gmap string Q) :
  sorts_ascending quicksort -> sorts_ascending quicksort' ->
  Permutation mof_df mof_df' ->
  Forall (fun m => ~ cost_per_kg m == 0) mof_df ->
  List.NoDup (map (fun m => Qred (performance_score
                (score_row (location_conditions location_data) m))) mof_df) ->
  optimize_for_location quicksort mof_df location_data =
  optimize_for_location quicksort' mof_df' location_data.
Proof.
  intros Hq Hq' Hperm _ Hnd.
  apply (Sorted_Permutation_eq (descending performance_score)
           (fun r => Qred (performance_score r))).
  - intros a b c. apply descending_exact_trans.
  - intros a b. apply descending_exact_antisym.
  - rewrite (optimize_for_location_Permutation quicksort Hq).
    rewrite (optimize_for_location_Permutation quicksort' Hq').
    now apply Permutation_map.
  - rewrite (Permutation_map _
      (optimize_for_location_Permutation quicksort Hq _ _)).
    now rewrite map_map.
  - rewrite optimize_for_location_unfold.
    now apply sort_values_descending_Sorted.
  - rewrite optimize_for_location_unfold.
    now apply sort_values_descending_Sorted.
Qed.

(** X11: in exact arithmetic the score never decreases when only
    [thermal_stability_K] is raised, and it stays the same once
    [thermal_stability_K] is at least 1.2 times the band's [temp_K]: the
    thermal margin is capped. *)
Theorem performance_score_thermal_stability
    (quicksort : forall R : Type, (R -> Q) -> list R -> list R)
    (location_data : gmap string Q) (m : mof_row Q) (t1 t2 : Q) :
  sorts_ascending quicksort ->
  t1 <= t2 ->
  let scores t :=
    map performance_score
      (optimize_for_location quicksort [with_thermal_stability_K t m]
         location_data) in
  Forall2 Qle (scores t1) (scores t2) /\
  ((12 # 10) * temp_K (location_conditions location_data) <= t1 ->
   Forall2 Qeq (scores t1) (scores t2)).
Proof.
  intros Hsort Ht scores. unfold scores.
  rewrite !optimize_for_location_single by assumption. cbn [map].
  assert (Hc : 0 < temp_K (location_conditions location_data))
    by apply band_temp_K_pos.
  split.
  - repeat constructor. now apply score_row_thermal_mono.
  - intros Hcap. repeat constructor.
    apply score_row_thermal_capped; [exact Hc|exact Hcap|].
    now apply Qle_trans with t1.
Qed.

(** X12: in exact arithmetic, of two materials that differ only in a
    positive [cost_per_kg], the cheaper one gets the strictly larger
    score. *)
Theorem performance_score_cost
    (quicksort : forall R : Type, (R -> Q) -> list R -> list R)
    (location_data : gmap string Q) (m : mof_row Q) (c1 c2 : Q) :
  sorts_ascending quicksort ->
  0 < c1 -> c1 < c2 ->
  let scores c :=
    map performance_score
      (optimize_for_location quicksort [with_cost_per_kg c m]
         location_data) in
  Forall2 Qlt (scores c2) (scores c1).
Proof.
  intros Hsort H1 H12 scores. unfold scores.
  rewrite !optimize_for_location_single by assumption. cbn [map].
  repeat constructor. now apply score_row_cost_decreasing.
Qed.

(** X13: in exact arithmetic, of two materials with the same positive
    [pore_volume_cm3g] and the same [cost_per_kg] other than zero that
    differ only in [surface_area_m2g], the one with the larger surface area
    gets the strictly larger score. *)
Theorem performance_score_surface_area
    (quicksort : forall R : Type, (R -> Q) -> list R -> list R)
    (location_data : gmap string Q) (m : mof_row Q) (a1 a2 : Q) :
  sorts_ascending quicksort ->
  ~ cost_per_kg m == 0 ->
  0 < pore_volume_cm3g m -> a1 < a2 ->
  let scores a :=
    map performance_score
      (optimize_for_location quicksort [with_surface_area_m2g a m]
         location_data) in
  Forall2 Qlt (scores a1) (scores a2).
Proof.
  intros Hsort _ Hpv Ha scores. unfold scores.
  rewrite !optimize_for_location_single by assumption. cbn [map].
  repeat constructor. now apply score_row_surface_increasing.
Qed.

Lemma optimize_for_location_In
    (quicksort : forall R : Type, (R -> Q) -> list R -> list R)
    (mof_df : list (mof_row Q)) (location_data : gmap string Q)
    (r : ranked_row Q) :
  sorts_ascending quicksort ->
  In r (optimize_for_location quicksort mof_df location_data) ->
  r = score_row (location_conditions location_data) (material r).
Proof.
  intros Hsort Hr.
  apply (Permutation_in _
    (optimize_for_location_Permutation quicksort Hsort _ _)) in Hr.
  apply in_map_iff in Hr as (m & <- & _). reflexivity.
Qed.

(** X14: in exact arithmetic, the estimated daily yield of a material with
    non-negative [max_water_uptake] at a site is at most its estimated
    yield at any site of lower or equal altitude, row by row of the two
    tables returned. *)
Theorem estimated_daily_yield_by_altitude
    (quicksort : forall R : Type, (R -> Q) -> list R -> list R)
    (mof_df : list (mof_row Q)) (low high : gmap string Q)
    (r_low r_high : ranked_row Q) :
  sorts_ascending quicksort ->
  dict_get low "altitude_m" 0 <= dict_get high "altitude_m" 0 ->
  In r_low (optimize_for_location quicksort mof_df low) ->
  In r_high (optimize_for_location quicksort mof_df high) ->
  material r_low = material r_high ->
  0 <= max_water_uptake (material r_low) ->
  estimated_daily_yield r_high <= estimated_daily_yield r_low.
Proof.
  intros Hsort Halt Hlow Hhigh Hsame Hmwu.
  rewrite (optimize_for_location_In _ _ _ _ Hsort Hlow).
  rewrite (optimize_for_location_In _ _ _ _ Hsort Hhigh).
  rewrite <- Hsame. cbn [score_row estimated_daily_yield].
  pose proof (humidity_avg_by_altitude _ _ Halt) as Hh.
  unfold location_conditions. cbn [mul int lit exact] in *.
  revert Hh Hmwu.
  generalize (max_water_uptake (material r_low)).
  generalize (humidity_avg (altitude_conditions
    (_categorize_altitude (dict_get high "altitude_m" 0)))).
  generalize (humidity_avg (altitude_conditions
    (_categorize_altitude (dict_get low "altitude_m" 0)))).
  intros h1 h2 u Hh Hu. nra.
Qed.

End ExactScore.

(** ** The report *)

Section InsightsFacts.
Context {F : Type} `{Arith F}.
Local Open Scope py_scope.

Lemma lookup_column_map (f : list F -> list F) (cols : list (string * list F))
    (n : string) :
  lookup_column (map (fun '(c, v) => (c, f v)) cols) n =
  option_map f (lookup_column cols n).
Proof.
  induction cols as [|[c v] cols IH]; cbn; [reflexivity|].
  destruct (String.eqb c n); [reflexivity|exact IH].
Qed.

Lemma lookup_assign_eq (cols : list (string * list F)) (n : string)
    (v : list F) :
  lookup_column (assign_column cols n v) n = Some v.
Proof.
  induction cols as [|[c w] cols IH]; cbn.
  - now rewrite String.eqb_refl.
  - destruct (String.eqb c n) eqn:E; cbn; rewrite E; [reflexivity|exact IH].
Qed.

Lemma lookup_assign_ne (cols : list (string * list F)) (n n' : string)
    (v : list F) :
  String.eqb n n' = false ->
  lookup_column (assign_column cols n v) n' = lookup_column cols n'.
Proof.
  intros Hne. induction cols as [|[c w] cols IH]; cbn.
  - now rewrite Hne.
  - destruct (String.eqb c n) eqn:E; cbn.
    + apply String.eqb_eq in E. subst c. now rewrite Hne.
    + destruct (String.eqb c n'); [reflexivity|exact IH].
Qed.

Lemma assign_column_same (cols : list (string * list F)) (n : string)
    (v : list F) :
  lookup_column cols n = Some v -> assign_column cols n v = cols.
Proof.
  induction cols as [|[c w] cols IH]; cbn; [discriminate|].
  destruct (String.eqb c n) eqn:E.
  - now intros [= ->].
  - intros Hv. now rewrite IH.
Qed.

Ltac run_insights :=
  unfold generate_ai_insights, mbind, step_mbind, step_bind, mret,
    step_mret, step_ret, the_frame, nlargest, frame_column, get_column,
    put_column, column, set_column;
  cbn [columns index_len fst snd].

Ltac simp_lookup :=
  repeat (cbn;
    first [ rewrite lookup_column_map
          | rewrite lookup_assign_eq
          | rewrite lookup_assign_ne by reflexivity
          | match goal with
            | E : lookup_column _ _ = _ |- _ => rewrite E
            end ]);
  cbn.

(** X15: [generate_ai_insights] raises [KeyError] exactly when the table
    lacks one of [surface_area_m2g], [Fips], [daily_water_yield],
    [cost_per_kg], [hydrophilicity], [thermal_stability_K], and the error
    names the first one missing in that order; with all six present it
    returns a report. *)
Theorem generate_ai_insights_raises (pd : pandas F) (features : frame F) :
  match List.find (missing features)
          ["surface_area_m2g"; "Fips"; "daily_water_yield"; "cost_per_kg";
           "hydrophilicity"; "thermal_stability_K"] with
  | Some n => snd (generate_ai_insights pd features) = Failed (KeyError n)
  | None => exists i, snd (generate_ai_insights pd features) = Done i
  end.
Proof.
  unfold missing. cbn [List.find]. run_insights.
  destruct (lookup_column (columns features) "surface_area_m2g") eqn:E1;
    simp_lookup; [|reflexivity].
  destruct (lookup_column (columns features) "Fips") eqn:E2;
    simp_lookup; [|reflexivity].
  destruct (lookup_column (columns features) "daily_water_yield") eqn:E3;
    simp_lookup; [|reflexivity].
  destruct (lookup_column (columns features) "cost_per_kg") eqn:E4;
    simp_lookup; [|reflexivity].
  destruct (lookup_column (columns features) "hydrophilicity") eqn:E5;
    simp_lookup; [|reflexivity].
  destruct (lookup_column (columns features) "thermal_stability_K") eqn:E6;
    simp_lookup; [|reflexivity].
  eexists. reflexivity.
Qed.

Lemma assign_column_missing (cols : list (string * list F)) (n : string)
    (v : list F) :
  lookup_column cols n = None -> assign_column cols n v = cols ++ [(n, v)].
Proof.
  induction cols as [|[c w] cols IH]; cbn; [reflexivity|].
  destruct (String.eqb c n); [discriminate|].
  intros Hn. now rewrite IH.
Qed.

Lemma lookup_column_In (cols : list (string * list F)) (n : string)
    (v : list F) :
  lookup_column cols n = Some v -> In n (map fst cols).
Proof.
  induction cols as [|[c w] cols IH]; cbn; [discriminate|].
  destruct (String.eqb c n) eqn:E.
  - apply String.eqb_eq in E. now left.
  - intros Hv. right. now apply IH.
Qed.

(** What a call that meets its six columns does and returns. *)
Lemma generate_ai_insights_done (pd : pandas F) (features : frame F)
    (s f y c h t : list F) :
  column features "surface_area_m2g" = Some s ->
  column features "Fips" = Some f ->
  column features "daily_water_yield" = Some y ->
  column features "cost_per_kg" = Some c ->
  column features "hydrophilicity" = Some h ->
  column features "thermal_stability_K" = Some t ->
  let ce := zip_with div y c in
  generate_ai_insights pd features =
  (set_column features "cost_effectiveness" ce,
   Done
     {| dataset_info :=
          {| name := "MOF Water Capture";
             description :=
               "Metal-Organic Framework atmospheric water capture for AI datacenters";
             num_samples := index_len features;
             num_features := Z.of_nat (length (columns features)) - 1 |};
        feature_statistics :=
          map (fun '(col, v) => (col, describe pd v))
            (List.filter (fun '(col, _) => negb (String.eqb col "Fips"))
               (columns features));
        key_findings :=
          [ {| finding := "Top Surface Area MOFs";
               counties := take_rows (nlargest_positions pd 3 s) f;
               values := take_rows (nlargest_positions pd 3 s) s |};
            {| finding := "Highest Daily Water Yield";
               counties := take_rows (nlargest_positions pd 3 y) f;
               values := take_rows (nlargest_positions pd 3 y) y |};
            {| finding := "Most Cost-Effective MOFs";
               counties := take_rows (nlargest_positions pd 3 ce) f;
               values := take_rows (nlargest_positions pd 3 ce) ce |} ];
        recommendations :=
          (if series_mean pd h <? lit 6 10
           then ["Consider MOFs with higher hydrophilicity (>0.7) for improved low-humidity performance"]
           else []) ++
          (if series_mean pd t <? int 600
           then ["Prioritize MOFs with thermal stability >600K for reliable temperature-swing operation"]
           else []) |}).
Proof.
  unfold column. intros E1 E2 E3 E4 E5 E6. run_insights. simp_lookup.
  reflexivity.
Qed.

Lemma generate_ai_insights_columns (pd : pandas F) (features : frame F)
    (i : insights F) :
  snd (generate_ai_insights pd features) = Done i ->
  exists s f y c h t,
    column features "surface_area_m2g" = Some s /\
    column features "Fips" = Some f /\
    column features "daily_water_yield" = Some y /\
    column features "cost_per_kg" = Some c /\
    column features "hydrophilicity" = Some h /\
    column features "thermal_stability_K" = Some t.
Proof.
  unfold column. run_insights.
  destruct (lookup_column (columns features) "surface_area_m2g") as [s|]
    eqn:E1; simp_lookup; [|discriminate].
  destruct (lookup_column (columns features) "Fips") as [f|]
    eqn:E2; simp_lookup; [|discriminate].
  destruct (lookup_column (columns features) "daily_water_yield") as [y|]
    eqn:E3; simp_lookup; [|discriminate].
  destruct (lookup_column (columns features) "cost_per_kg") as [c|]
    eqn:E4; simp_lookup; [|discriminate].
  destruct (lookup_column (columns features) "hydrophilicity") as [h|]
    eqn:E5; simp_lookup; [|discriminate].
  destruct (lookup_column (columns features) "thermal_stability_K") as [t|]
    eqn:E6; simp_lookup; [|discriminate].
  intros _. now exists s, f, y, c, h, t.
Qed.

Lemma generate_ai_insights_table (pd : pandas F) (features : frame F) :
  fst (generate_ai_insights pd features) =
  match column features "surface_area_m2g", column features "Fips",
        column features "daily_water_yield", column features "cost_per_kg"
  with
  | Some _, Some _, Some y, Some c =>
      set_column features "cost_effectiveness" (zip_with div y c)
  | _, _, _, _ => features
  end.
Proof.
  unfold column. run_insights.
  destruct (lookup_column (columns features) "surface_area_m2g") eqn:E1;
    simp_lookup; [|reflexivity].
  destruct (lookup_column (columns features) "Fips") eqn:E2;
    simp_lookup; [|reflexivity].
  destruct (lookup_column (columns features) "daily_water_yield") eqn:E3;
    simp_lookup; [|reflexivity].
  destruct (lookup_column (columns features) "cost_per_kg") eqn:E4;
    simp_lookup; [|reflexivity].
  destruct (lookup_column (columns features) "hydrophilicity") eqn:E5;
    simp_lookup; [|reflexivity].
  destruct (lookup_column (columns features) "thermal_stability_K") eqn:E6;
    simp_lookup; reflexivity.
Qed.

Lemma assign_column_names (cols : list (string * list F)) (n : string)
    (v : list F) :
  map fst (assign_column cols n v) =
  match lookup_column cols n with
  | Some _ => map fst cols
  | None => map fst cols ++ [n]
  end.
Proof.
  induction cols as [|[c w] cols IH]; cbn; [reflexivity|].
  destruct (String.eqb c n) eqn:E; cbn; [reflexivity|].
  rewrite IH. now destruct (lookup_column cols n).
Qed.

(** X16: [generate_ai_insights] changes the table it is given: once
    [surface_area_m2g], [Fips], [daily_water_yield] and [cost_per_kg] are
    found, the caller's table has a column [cost_effectiveness] holding
    [daily_water_yield / cost_per_kg] row by row, also when the call then
    raises for [hydrophilicity] or [thermal_stability_K]; the column is put
    last if it is new and replaced in place otherwise, every other column
    and the number of rows are kept; if one of the four is missing the
    table is left as it was. *)
Theorem generate_ai_insights_changes_table (pd : pandas F)
    (features : frame F) :
  let after := fst (generate_ai_insights pd features) in
  match column features "surface_area_m2g", column features "Fips",
        column features "daily_water_yield", column features "cost_per_kg"
  with
  | Some _, Some _, Some y, Some c =>
      column after "cost_effectiveness" = Some (zip_with div y c) /\
      (forall n, String.eqb "cost_effectiveness" n = false ->
         column after n = column features n) /\
      index_len after = index_len features /\
      map fst (columns after) =
        (if missing features "cost_effectiveness"
         then map fst (columns features) ++ ["cost_effectiveness"]
         else map fst (columns features))
  | _, _, _, _ => after = features
  end.
Proof.
  cbv zeta. rewrite generate_ai_insights_table.
  destruct (column features "surface_area_m2g"); [|reflexivity].
  destruct (column features "Fips"); [|reflexivity].
  destruct (column features "daily_water_yield") as [y|]; [|reflexivity].
  destruct (column features "cost_per_kg") as [c|]; [|reflexivity].
  unfold column, set_column, missing. cbn [columns index_len].
  split; [apply lookup_assign_eq|].
  split; [intros n Hn; now apply lookup_assign_ne|].
  split; [reflexivity|].
  rewrite assign_column_names. unfold column.
  now destruct (lookup_column (columns features) "cost_effectiveness").
Qed.

Lemma generate_ai_insights_inv (pd : pandas F) (features after : frame F)
    (i : insights F) :
  generate_ai_insights pd features = (after, Done i) ->
  exists s f y c h t,
    column features "surface_area_m2g" = Some s /\
    column features "Fips" = Some f /\
    column features "daily_water_yield" = Some y /\
    column features "cost_per_kg" = Some c /\
    column features "hydrophilicity" = Some h /\
    column features "thermal_stability_K" = Some t /\
    generate_ai_insights pd features =
      (after, Done i) /\
    after = set_column features "cost_effectiveness" (zip_with div y c).
Proof.
  intros Hrun.
  destruct (generate_ai_insights_columns pd features i)
    as (s & f & y & c & h & t & E1 & E2 & E3 & E4 & E5 & E6).
  { now rewrite Hrun. }
  exists s, f, y, c, h, t. repeat (split; [assumption|]).
  pose proof (generate_ai_insights_table pd features) as Ht.
  rewrite Hrun, E1, E2, E3, E4 in Ht. exact Ht.
Qed.

(** X17: the report is computed before the column is added, so a second
    call on the same table does not repeat the first: on a table without
    [cost_effectiveness], after a call that returns, a second call leaves
    the table as the first left it and returns the same key findings and
    recommendations, but counts one feature more and has one more entry,
    [cost_effectiveness], in the feature statistics. *)
Theorem generate_ai_insights_twice (pd : pandas F) (features after : frame F)
    (i : insights F) :
  column features "cost_effectiveness" = None ->
  generate_ai_insights pd features = (after, Done i) ->
  exists ce,
    column after "cost_effectiveness" = Some ce /\
    generate_ai_insights pd after =
    (after,
     Done
       {| dataset_info :=
            {| name := name (dataset_info i);
               description := description (dataset_info i);
               num_samples := num_samples (dataset_info i);
               num_features := num_features (dataset_info i) + 1 |};
          feature_statistics :=
            feature_statistics i ++ [("cost_effectiveness", describe pd ce)];
          key_findings := key_findings i;
          recommendations := recommendations i |}).
Proof.
  intros Hce Hrun.
  destruct (generate_ai_insights_inv pd features after i Hrun)
    as (s & f & y & c & h & t & E1 & E2 & E3 & E4 & E5 & E6 & _ & Hafter).
  rewrite (generate_ai_insights_done pd features s f y c h t) in Hrun
    by assumption.
  injection Hrun as _ <-. exists (zip_with div y c).
  assert (Hsame : forall n, String.eqb "cost_effectiveness" n = false ->
            column after n = column features n).
  { intros n Hn. subst after. unfold column, set_column. cbn [columns].
    now apply lookup_assign_ne. }
  assert (Hcol : column after "cost_effectiveness" = Some (zip_with div y c)).
  { subst after. unfold column, set_column. cbn [columns].
    apply lookup_assign_eq. }
  split; [exact Hcol|].
  rewrite (generate_ai_insights_done pd after s f y c h t)
    by (rewrite Hsame by reflexivity; assumption).
  assert (Hset : set_column after "cost_effectiveness" (zip_with div y c)
                 = after).
  { unfold set_column. rewrite (assign_column_same _ _ _ Hcol).
    now destruct after. }
  rewrite Hset. f_equal. f_equal.
  assert (Hcols : columns after =
            columns features ++ [("cost_effectiveness", zip_with div y c)]).
  { subst after. unfold set_column. cbn [columns].
    now apply assign_column_missing. }
  cbn [dataset_info feature_statistics key_findings recommendations
       name description num_samples num_features].
  rewrite Hcols. f_equal.
  - f_equal; [now subst after|]. rewrite length_app. cbn [length]. lia.
  - rewrite List.filter_app, map_app. reflexivity.
Qed.

Lemma filter_not_Fips_names (cols : list (string * list F))
    (g : string * list F -> string * statistics F) :
  (forall c, fst (g c) = fst c) ->
  map fst (map g (List.filter
    (fun '(col, _) => negb (String.eqb col "Fips")) cols)) =
  List.filter (fun n => negb (String.eqb n "Fips")) (map fst cols).
Proof.
  intros Hg. induction cols as [|[c w] cols IH]; cbn; [reflexivity|].
  destruct (String.eqb c "Fips"); cbn; [exact IH|].
  now rewrite Hg, IH.
Qed.

Lemma filter_out_length (x : string) (l : list string) :
  List.NoDup l -> In x l ->
  (length (List.filter (fun n => negb (String.eqb n x)) l) + 1 = length l)%nat.
Proof.
  intros Hnd. induction Hnd as [|y l Hy Hnd IH]; intros Hx; [destruct Hx|].
  cbn. destruct (String.eqb y x) eqn:E; cbn.
  - apply String.eqb_eq in E. subst y.
    assert (Hall : List.filter (fun n => negb (String.eqb n x)) l = l).
    { clear -Hy. induction l as [|z l IH]; cbn; [reflexivity|].
      destruct (String.eqb z x) eqn:E; cbn.
      - apply String.eqb_eq in E. subst z. exfalso. apply Hy. now left.
      - f_equal. apply IH. intros Hin. apply Hy. now right. }
    rewrite Hall. lia.
  - destruct Hx as [->|Hx]; [now rewrite String.eqb_refl in E|].
    specialize (IH Hx). lia.
Qed.

(** X18: in a report on a table of numeric columns, the feature
    statistics have one entry for every column but [Fips], in the order of
    the columns, [num_samples] is the number of rows, and with distinct
    column names [num_features] is the number of entries of the feature
    statistics. *)
Theorem generate_ai_insights_statistics (pd : pandas F)
    (features after : frame F) (i : insights F) :
  generate_ai_insights pd features = (after, Done i) ->
  map fst (feature_statistics i) =
    List.filter (fun n => negb (String.eqb n "Fips"))
      (map fst (columns features)) /\
  num_samples (dataset_info i) = index_len features /\
  (List.NoDup (map fst (columns features)) ->
   Z.of_nat (length (feature_statistics i)) = num_features (dataset_info i)).
Proof.
  intros Hrun.
  destruct (generate_ai_insights_inv pd features after i Hrun)
    as (s & f & y & c & h & t & E1 & E2 & E3 & E4 & E5 & E6 & _ & Hafter).
  rewrite (generate_ai_insights_done pd features s f y c h t) in Hrun
    by assumption.
  injection Hrun as _ <-.
  cbn [dataset_info feature_statistics num_samples num_features].
  assert (Hnames :
    map fst (map (fun '(col, v) => (col, describe pd v))
      (List.filter (fun '(col, _) => negb (String.eqb col "Fips"))
         (columns features))) =
    List.filter (fun n => negb (String.eqb n "Fips"))
      (map fst (columns features))).
  { apply filter_not_Fips_names. now intros [c0 w]. }
  split; [exact Hnames|]. split; [reflexivity|].
  intros Hnd.
  rewrite <- (length_map fst), Hnames.
  pose proof (filter_out_length "Fips" _ Hnd (lookup_column_In _ _ _ E2)) as Hl.
  rewrite length_map in Hl. lia.
Qed.
End InsightsFacts.

(** X19: a report has at most two recommendations, and none when the mean
    hydrophilicity is at least 0.6 or NaN and the mean thermal stability is
    at least 600 or NaN. *)
Theorem generate_ai_insights_recommendations (F : Type) (A : Arith F)
    (O : ArithOrder F) (pd : pandas F) (features after : frame F)
    (i : insights F) (h t : list F) :
  generate_ai_insights pd features = (after, Done i) ->
  column features "hydrophilicity" = Some h ->
  column features "thermal_stability_K" = Some t ->
  (length (recommendations i) <= 2)%nat /\
  (leb (lit 6 10) (series_mean pd h) = true \/
   isnan (series_mean pd h) = true ->
   leb (int 600) (series_mean pd t) = true \/
   isnan (series_mean pd t) = true ->
   recommendations i = []).
Proof.
  intros Hrun Hh Ht.
  destruct (generate_ai_insights_inv pd features after i Hrun)
    as (s & f & y & c & h' & t' & E1 & E2 & E3 & E4 & E5 & E6 & _ & Hafter).
  rewrite (generate_ai_insights_done pd features s f y c h' t') in Hrun
    by assumption.
  injection Hrun as _ <-. cbn [recommendations].
  assert (h' = h) by congruence. assert (t' = t) by congruence. subst h' t'.
  split.
  - destruct (ltb (series_mean pd h) (lit 6 10)),
             (ltb (series_mean pd t) (int 600)); cbn; lia.
  - intros Hmh Hmt.
    assert (H1 : ltb (series_mean pd h) (lit 6 10) = false)
      by (destruct Hmh; [now apply leb_ltb_false|now apply nan_ltb_l]).
    assert (H2 : ltb (series_mean pd t) (int 600) = false)
      by (destruct Hmt; [now apply leb_ltb_false|now apply nan_ltb_l]).
    now rewrite H1, H2.
Qed.

(** ** The further theorems at concrete inputs *)

Lemma simulate_mof_performance_reads_three_keys_witness :
  simulate_mof_performance (F := float) mean_fold scenario_properties
    scenario_humidity 298%float =
  simulate_mof_performance mean_fold
    (<["pore_volume_cm3g" := 2%float]>
       (<["cost_per_kg" := 1%float]> scenario_properties))
    scenario_humidity 350%float.
Proof.
  apply simulate_mof_performance_reads_three_keys; vm_compute; reflexivity.
Defined.

Lemma langmuir_uptake_range_witness :
  (0 <= langmuir_point (345 # 1000) (25 # 10) (1 # 2))%Q /\
  (langmuir_point (345 # 1000) (25 # 10) (1 # 2) < 345 # 1000)%Q /\
  (langmuir_point (345 # 1000) (25 # 10) (1 # 10) <
   langmuir_point (345 # 1000) (25 # 10) (9 # 10))%Q /\
  (langmuir_point (345 # 1000) (25 # 10) (1 / (25 # 10)) ==
   (345 # 1000) / 2)%Q.
Proof.
  destruct (langmuir_uptake_range (345 # 1000) (25 # 10))
    as (Hrange & Hmono & Hhalf); [reflexivity|reflexivity|].
  destruct (Hrange (1 # 2)%Q) as [Hlo Hhi]; [discriminate|].
  split; [exact Hlo|]. split; [exact Hhi|]. split; [|exact Hhalf].
  apply Hmono; [discriminate|reflexivity].
Defined.

Lemma simulate_zero_hydrophilicity_witness :
  let result :=
    simulate_mof_performance (F := Q) mean_fold
      (<["hydrophilicity" := 0%Q]> scenario_properties) scenario_humidity
      298%Q in
  (K result == 0)%Q /\
  Forall (fun u => u == 0)%Q (water_uptake result) /\
  (daily_yield_L_kg_day result == 0)%Q.
Proof.
  destruct (simulate_zero_hydrophilicity
              (<["hydrophilicity" := 0%Q]> scenario_properties)
              scenario_humidity 298%Q 0%Q) as (HK & Hu & Hd);
    [vm_compute; reflexivity|reflexivity|].
  cbv zeta. split; [exact HK|]. split; [exact Hu|].
  apply Hd. discriminate.
Defined.

Lemma simulate_daily_yield_bounds_witness :
  let result :=
    simulate_mof_performance (F := Q) mean_fold scenario_properties
      scenario_humidity 298%Q in
  Forall (fun u => 0 <= u <= q_max result)%Q (water_uptake result) /\
  (0 <= daily_yield_L_kg_day result <= 4 * q_max result)%Q.
Proof.
  apply (simulate_daily_yield_bounds scenario_properties scenario_humidity
           298%Q).
  - discriminate.
  - repeat constructor; discriminate.
  - vm_compute. discriminate.
  - vm_compute. discriminate.
Defined.

Lemma optimize_for_location_top_witness :
  exists r0 rest,
    optimize_for_location stable_sort
      [scenario_material; with_cost_per_kg 80%float scenario_material]
      (scenario_location (F := float)) = r0 :: rest /\
    PrimFloat.leb
      (performance_score
         (score_row (location_conditions scenario_location)
            (with_cost_per_kg 80%float scenario_material)))
      (performance_score r0) = true.
Proof.
  destruct (optimize_for_location stable_sort
    [scenario_material; with_cost_per_kg 80%float scenario_material]
    (scenario_location (F := float))) as [|r0 rest] eqn:E;
    [vm_compute in E; discriminate E|].
  exists r0, rest. split; [reflexivity|].
  destruct (optimize_for_location_top float binary64 binary64_order
    stable_sort
    [scenario_material; with_cost_per_kg 80%float scenario_material]
    scenario_location r0 rest (with_cost_per_kg 80%float scenario_material)
    float_nan_leb_r stable_sort_ok E (or_intror (or_introl eq_refl)))
    as [Hle|Hnan].
  - exact Hle.
  - vm_compute in Hnan. discriminate Hnan.
Defined.

Lemma optimize_for_location_nan_last_witness :
  let m := with_hydrophilicity nan scenario_material in
  let r := score_row (location_conditions scenario_location) m in
  PrimFloat.is_nan (performance_score r) = true /\
  In r (optimize_for_location stable_sort [m; scenario_material]
          scenario_location) /\
  forall pre post,
    optimize_for_location stable_sort [m; scenario_material]
      scenario_location = pre ++ r :: post ->
    Forall (fun x => PrimFloat.is_nan (performance_score x) = true) post.
Proof.
  apply (optimize_for_location_nan_last stable_sort
           [with_hydrophilicity nan scenario_material; scenario_material]
           scenario_location (with_hydrophilicity nan scenario_material)
           stable_sort_ok).
  - now left.
  - left. reflexivity.
Defined.

Lemma optimize_for_location_without_ties_witness :
  optimize_for_location stable_sort
    [scenario_material; with_cost_per_kg 80%Q scenario_material]
    (scenario_location (F := Q)) =
  optimize_for_location stable_sort
    [with_cost_per_kg 80%Q scenario_material; scenario_material]
    scenario_location.
Proof.
  apply optimize_for_location_without_ties.
  - exact stable_sort_ok.
  - exact stable_sort_ok.
  - apply perm_swap.
  - repeat constructor; discriminate.
  - vm_compute. repeat constructor.
    + intros [E|[]]. discriminate E.
    + intros [].
Defined.

Lemma performance_score_thermal_stability_witness :
  let scores t :=
    map performance_score
      (optimize_for_location stable_sort
         [with_thermal_stability_K t scenario_material]
         (scenario_location (F := Q))) in
  Forall2 Qle (scores 300%Q) (scores 600%Q) /\
  Forall2 Qeq (scores 400%Q) (scores 600%Q).
Proof.
  cbv zeta. split.
  - apply (performance_score_thermal_stability stable_sort scenario_location
             scenario_material 300%Q 600%Q stable_sort_ok). discriminate.
  - apply (performance_score_thermal_stability stable_sort scenario_location
             scenario_material 400%Q 600%Q stable_sort_ok).
    + discriminate.
    + vm_compute. discriminate.
Defined.

Lemma performance_score_cost_witness :
  let scores c :=
    map performance_score
      (optimize_for_location stable_sort
         [with_cost_per_kg c scenario_material]
         (scenario_location (F := Q))) in
  Forall2 Qlt (scores 80%Q) (scores 50%Q).
Proof.
  apply (performance_score_cost stable_sort scenario_location
           scenario_material 50%Q 80%Q stable_sort_ok); reflexivity.
Defined.

Lemma performance_score_surface_area_witness :
  let scores a :=
    map performance_score
      (optimize_for_location stable_sort
         [with_surface_area_m2g a scenario_material]
         (scenario_location (F := Q))) in
  Forall2 Qlt (scores 1000%Q) (scores 1500%Q).
Proof.
  apply (performance_score_surface_area stable_sort scenario_location
           scenario_material 1000%Q 1500%Q stable_sort_ok);
    [discriminate|reflexivity|reflexivity].
Defined.

Lemma estimated_daily_yield_by_altitude_witness :
  (estimated_daily_yield
     (score_row (location_conditions {[ "altitude_m" := 3000%Q ]})
        scenario_material) <=
   estimated_daily_yield
     (score_row (location_conditions (scenario_location (F := Q)))
        scenario_material))%Q.
Proof.
  apply (estimated_daily_yield_by_altitude stable_sort [scenario_material]
           scenario_location {[ "altitude_m" := 3000%Q ]} _ _ stable_sort_ok).
  - vm_compute. discriminate.
  - vm_compute. left. reflexivity.
  - vm_compute. left. reflexivity.
  - reflexivity.
  - vm_compute. discriminate.
Defined.

Lemma generate_ai_insights_twice_witness :
  exists after i i',
    generate_ai_insights reference_pandas (scenario_frame (F := float)) =
      (after, Done i) /\
    generate_ai_insights reference_pandas after = (after, Done i') /\
    num_features (dataset_info i) = 5%Z /\
    num_features (dataset_info i') = 6%Z /\
    map fst (feature_statistics i') =
      map fst (feature_statistics i) ++ ["cost_effectiveness"].
Proof.
  destruct (generate_ai_insights reference_pandas (scenario_frame (F := float)))
    as [after [i|e]] eqn:E; [|vm_compute in E; discriminate E].
  destruct (generate_ai_insights_twice reference_pandas scenario_frame after i
              eq_refl E)
    as (ce & Hce & Hrun).
  exists after, i. eexists. split; [reflexivity|]. split; [exact Hrun|].
  vm_compute in E. injection E as <- <-.
  cbn [dataset_info num_features feature_statistics].
  split; [reflexivity|]. split; [reflexivity|].
  rewrite map_app. reflexivity.
Defined.

Lemma generate_ai_insights_statistics_witness :
  exists after i,
    generate_ai_insights reference_pandas (scenario_frame (F := float)) =
      (after, Done i) /\
    map fst (feature_statistics i) =
      ["surface_area_m2g"; "hydrophilicity"; "thermal_stability_K";
       "cost_per_kg"; "daily_water_yield"] /\
    num_samples (dataset_info i) = 3%nat /\
    Z.of_nat (length (feature_statistics i)) = num_features (dataset_info i).
Proof.
  destruct (generate_ai_insights reference_pandas (scenario_frame (F := float)))
    as [after [i|e]] eqn:E; [|vm_compute in E; discriminate E].
  destruct (generate_ai_insights_statistics reference_pandas scenario_frame
              after i E)
    as (Hnames & Hrows & Hcount).
  exists after, i. split; [reflexivity|].
  split; [rewrite Hnames; reflexivity|]. split; [exact Hrows|].
  apply Hcount. vm_compute.
  repeat (constructor; [cbn; intuition discriminate|]). constructor.
Defined.

Lemma generate_ai_insights_recommendations_witness :
  exists after i,
    generate_ai_insights reference_pandas (scenario_frame (F := Q)) =
      (after, Done i) /\
    recommendations i = [].
Proof.
  destruct (generate_ai_insights reference_pandas (scenario_frame (F := Q)))
    as [after [i|e]] eqn:E; [|vm_compute in E; discriminate E].
  destruct (generate_ai_insights_recommendations Q exact exact_order
              reference_pandas scenario_frame after i
              [5 # 10; 7 # 10; 6 # 10]%Q [600; 650; 700]%Q E)
    as (_ & Hnone).
  - vm_compute. reflexivity.
  - reflexivity.
  - exists after, i. split; [reflexivity|].
    apply Hnone; left; reflexivity.
Defined.
